(** * PNGTuber: the audio-reactive avatar of [js/app.js]

    A shallow embedding of the signal-acquisition core of the avatar: the
    talk state machine ([processVolume]), the OBS WebSocket client
    ([initOBSWebSocket], [handleOBSMessage], [obsSend], the polling loop) and
    the fallback to local microphone capture ([initAudio], [startAudioLoop]).

    Conventions of the embedding.
    - The object [this] is a record that every method takes and returns.
    - A JavaScript number that carries a volume is an exact rational ([Q]);
      the rounding of IEEE-754 doubles is not part of the methods below, and
      only statements that rounding cannot break are proved of them.  The
      smoothing assignment is given a second time in binary64
      ([Binary64.smoothing]) to show where rounding does break a bound.  A
      number produced by [parseInt] is [option Z], with [None] for [NaN].
    - The browser is the environment: callbacks it invokes (socket events,
      timers, animation frames, the settling of [getUserMedia]) are the
      constructors of [Event]; what the page asks of the browser (frames
      handed to [WebSocket.send], pending timers, [getUserMedia] requests,
      the [talking] class of the avatar) is recorded in fields of the record
      on whose value no branch of a method depends. *)

From Stdlib Require Import ZArith QArith Qminmax Qround Lqa Lia.
From Stdlib Require Import Bool List String Ascii DecimalString.
From Stdlib Require HexadecimalString HexadecimalZ DecimalZ DecimalPos.
From Stdlib Require PrimFloat Uint63.
Import ListNotations.

Open Scope Q_scope.

(** ** JavaScript primitives used by the page *)

Module JS.

(** [Math.max(a, b)] and [Math.min(a, b)] on numbers that are not [NaN]. *)
Definition Math_max (a b : Q) : Q := if Qle_bool a b then b else a.
Definition Math_min (a b : Q) : Q := if Qle_bool a b then a else b.

(** [Math.round(x)]: the integer nearest to [x], ties towards +infinity. *)
Definition Math_round (x : Q) : Z := Qfloor (x + 0.5).

(** [a > b] where [b] may be [NaN]: every comparison with [NaN] is false. *)
Definition gt (a : Q) (b : option Z) : bool :=
  match b with
  | Some t => negb (Qle_bool a (inject_Z t))
  | None => false
  end.

(** Truthiness of a string: only the empty string is falsy. *)
Definition truthy (s : string) : bool :=
  match s with
  | EmptyString => false
  | String _ _ => true
  end.

(** [v || dflt] for [v] a string or [null]. *)
Definition or_default (v : option string) (dflt : string) : string :=
  match v with
  | Some s => if truthy s then s else dflt
  | None => dflt
  end.

(** White space skipped by [parseInt] (the ASCII part of it). *)
Definition is_space (c : ascii) : bool :=
  let n := nat_of_ascii c in
  ((n =? 32) || (n =? 9) || (n =? 10) || (n =? 11) || (n =? 12) || (n =? 13))%nat.

Definition digit_of (c : ascii) : option Z :=
  let n := nat_of_ascii c in
  if ((48 <=? n) && (n <=? 57))%nat then Some (Z.of_nat n - 48)%Z else None.

Fixpoint skip_spaces (s : string) : string :=
  match s with
  | String c rest => if is_space c then skip_spaces rest else s
  | EmptyString => s
  end.

(** The longest prefix of decimal digits of [s], read with [acc] as the
    value of the digits already consumed; [seen] tells whether there was
    one. *)
Fixpoint digits (s : string) (seen : bool) (acc : Z) : option Z :=
  match s with
  | String c rest =>
      match digit_of c with
      | Some k => digits rest true (10 * acc + k)%Z
      | None => if seen then Some acc else None
      end
  | EmptyString => if seen then Some acc else None
  end.

(** [parseInt(s, 10)]: leading white space, an optional sign, then the
    longest run of digits; [NaN] when there is no digit. *)
Definition parseInt (s : string) : option Z :=
  match skip_spaces s with
  | String "-"%char rest => option_map Z.opp (digits rest false 0%Z)
  | String "+"%char rest => digits rest false 0%Z
  | t => digits t false 0%Z
  end.

(** Number to string, for integers: ['vol_' + Date.now()]. *)
Definition toString (z : Z) : string := NilZero.string_of_int (Z.to_int z).

End JS.

(** ** [URLSearchParams]

    The query string as the browser has parsed it: name/value pairs in the
    order of the URL; [get] returns the first value of a name. *)

Definition URLSearchParams := list (string * string).

Fixpoint params_get (params : URLSearchParams) (name : string) : option string :=
  match params with
  | (k, v) :: rest => if String.eqb k name then Some v else params_get rest name
  | [] => None
  end.

Definition params_has (params : URLSearchParams) (name : string) : bool :=
  match params_get params name with
  | Some _ => true
  | None => false
  end.

(** ** The wire protocol of the OBS WebSocket *)

Inductive ReadyState := CONNECTING | OPEN | CLOSING | CLOSED.

Definition ReadyState_eqb (a b : ReadyState) : bool :=
  match a, b with
  | CONNECTING, CONNECTING | OPEN, OPEN | CLOSING, CLOSING | CLOSED, CLOSED => true
  | _, _ => false
  end.

(** An incoming frame after [JSON.parse]: the properties the page reads.
    [None] is a property that is absent ([undefined]). *)
Record ResponseData := { inputVolumeMul : option Q }.

Record MessageData := {
  requestType : option string;
  responseData : option ResponseData
}.

Record Message := { op : Z; d : option MessageData }.

(** The objects the page hands to [obsSend]. *)
Inductive Outgoing :=
| Identify (rpcVersion : Z) (authentication : option string)
| Request (requestType requestId inputName : string).

(** ** The object [this] of class [PNGTuber] *)

Record PNGTuber := mkPNGTuber {
  (* OBS WebSocket state *)
  obsWebSocket : option ReadyState;  (* [null], or the socket and its readyState *)
  obsConnected : bool;
  obsAudioSource : string;
  obsPort : string;
  obsPassword : string;
  (* settings *)
  threshold : option Z;
  isTalking : bool;
  smoothedVolume : Q;
  (* what the page has asked of the browser *)
  volumeBar : option Q;          (* width of the level meter in percent; [None]: no such element *)
  mouth : list bool;             (* calls of updateMouthState, oldest first *)
  wire : list Outgoing;          (* frames given to WebSocket.send, oldest first *)
  sockets : nat;                 (* WebSocket objects constructed *)
  deadline : bool;               (* the 3000 ms timer is pending *)
  pollTimers : nat;              (* pending setTimeout(pollAudio, 16) *)
  micRequests : nat;             (* getUserMedia promises not yet settled *)
  initAudioCalls : nat;          (* calls of initAudio *)
  audioLoops : nat;              (* processAudio loops rescheduling themselves *)
  micDenied : bool               (* the prompt shows the denial text *)
}.

(** Field updates, one per field the methods assign. *)

Definition set_obsWebSocket (x : option ReadyState) (st : PNGTuber) : PNGTuber :=
  let '(mkPNGTuber _ a2 a3 a4 a5 a6 a7 a8 a9 a10 a11 a12 a13 a14 a15 a16 a17 a18) := st in
  mkPNGTuber x a2 a3 a4 a5 a6 a7 a8 a9 a10 a11 a12 a13 a14 a15 a16 a17 a18.

Definition set_obsConnected (x : bool) (st : PNGTuber) : PNGTuber :=
  let '(mkPNGTuber a1 _ a3 a4 a5 a6 a7 a8 a9 a10 a11 a12 a13 a14 a15 a16 a17 a18) := st in
  mkPNGTuber a1 x a3 a4 a5 a6 a7 a8 a9 a10 a11 a12 a13 a14 a15 a16 a17 a18.

Definition set_obsAudioSource (x : string) (st : PNGTuber) : PNGTuber :=
  let '(mkPNGTuber a1 a2 _ a4 a5 a6 a7 a8 a9 a10 a11 a12 a13 a14 a15 a16 a17 a18) := st in
  mkPNGTuber a1 a2 x a4 a5 a6 a7 a8 a9 a10 a11 a12 a13 a14 a15 a16 a17 a18.

Definition set_obsPort (x : string) (st : PNGTuber) : PNGTuber :=
  let '(mkPNGTuber a1 a2 a3 _ a5 a6 a7 a8 a9 a10 a11 a12 a13 a14 a15 a16 a17 a18) := st in
  mkPNGTuber a1 a2 a3 x a5 a6 a7 a8 a9 a10 a11 a12 a13 a14 a15 a16 a17 a18.

Definition set_obsPassword (x : string) (st : PNGTuber) : PNGTuber :=
  let '(mkPNGTuber a1 a2 a3 a4 _ a6 a7 a8 a9 a10 a11 a12 a13 a14 a15 a16 a17 a18) := st in
  mkPNGTuber a1 a2 a3 a4 x a6 a7 a8 a9 a10 a11 a12 a13 a14 a15 a16 a17 a18.

Definition set_threshold (x : option Z) (st : PNGTuber) : PNGTuber :=
  let '(mkPNGTuber a1 a2 a3 a4 a5 _ a7 a8 a9 a10 a11 a12 a13 a14 a15 a16 a17 a18) := st in
  mkPNGTuber a1 a2 a3 a4 a5 x a7 a8 a9 a10 a11 a12 a13 a14 a15 a16 a17 a18.

Definition set_isTalking (x : bool) (st : PNGTuber) : PNGTuber :=
  let '(mkPNGTuber a1 a2 a3 a4 a5 a6 _ a8 a9 a10 a11 a12 a13 a14 a15 a16 a17 a18) := st in
  mkPNGTuber a1 a2 a3 a4 a5 a6 x a8 a9 a10 a11 a12 a13 a14 a15 a16 a17 a18.

Definition set_smoothedVolume (x : Q) (st : PNGTuber) : PNGTuber :=
  let '(mkPNGTuber a1 a2 a3 a4 a5 a6 a7 _ a9 a10 a11 a12 a13 a14 a15 a16 a17 a18) := st in
  mkPNGTuber a1 a2 a3 a4 a5 a6 a7 x a9 a10 a11 a12 a13 a14 a15 a16 a17 a18.

Definition set_volumeBar (x : option Q) (st : PNGTuber) : PNGTuber :=
  let '(mkPNGTuber a1 a2 a3 a4 a5 a6 a7 a8 _ a10 a11 a12 a13 a14 a15 a16 a17 a18) := st in
  mkPNGTuber a1 a2 a3 a4 a5 a6 a7 a8 x a10 a11 a12 a13 a14 a15 a16 a17 a18.

Definition set_mouth (x : list bool) (st : PNGTuber) : PNGTuber :=
  let '(mkPNGTuber a1 a2 a3 a4 a5 a6 a7 a8 a9 _ a11 a12 a13 a14 a15 a16 a17 a18) := st in
  mkPNGTuber a1 a2 a3 a4 a5 a6 a7 a8 a9 x a11 a12 a13 a14 a15 a16 a17 a18.

Definition set_wire (x : list Outgoing) (st : PNGTuber) : PNGTuber :=
  let '(mkPNGTuber a1 a2 a3 a4 a5 a6 a7 a8 a9 a10 _ a12 a13 a14 a15 a16 a17 a18) := st in
  mkPNGTuber a1 a2 a3 a4 a5 a6 a7 a8 a9 a10 x a12 a13 a14 a15 a16 a17 a18.

Definition set_sockets (x : nat) (st : PNGTuber) : PNGTuber :=
  let '(mkPNGTuber a1 a2 a3 a4 a5 a6 a7 a8 a9 a10 a11 _ a13 a14 a15 a16 a17 a18) := st in
  mkPNGTuber a1 a2 a3 a4 a5 a6 a7 a8 a9 a10 a11 x a13 a14 a15 a16 a17 a18.

Definition set_deadline (x : bool) (st : PNGTuber) : PNGTuber :=
  let '(mkPNGTuber a1 a2 a3 a4 a5 a6 a7 a8 a9 a10 a11 a12 _ a14 a15 a16 a17 a18) := st in
  mkPNGTuber a1 a2 a3 a4 a5 a6 a7 a8 a9 a10 a11 a12 x a14 a15 a16 a17 a18.

Definition set_pollTimers (x : nat) (st : PNGTuber) : PNGTuber :=
  let '(mkPNGTuber a1 a2 a3 a4 a5 a6 a7 a8 a9 a10 a11 a12 a13 _ a15 a16 a17 a18) := st in
  mkPNGTuber a1 a2 a3 a4 a5 a6 a7 a8 a9 a10 a11 a12 a13 x a15 a16 a17 a18.

Definition set_micRequests (x : nat) (st : PNGTuber) : PNGTuber :=
  let '(mkPNGTuber a1 a2 a3 a4 a5 a6 a7 a8 a9 a10 a11 a12 a13 a14 _ a16 a17 a18) := st in
  mkPNGTuber a1 a2 a3 a4 a5 a6 a7 a8 a9 a10 a11 a12 a13 a14 x a16 a17 a18.

Definition set_initAudioCalls (x : nat) (st : PNGTuber) : PNGTuber :=
  let '(mkPNGTuber a1 a2 a3 a4 a5 a6 a7 a8 a9 a10 a11 a12 a13 a14 a15 _ a17 a18) := st in
  mkPNGTuber a1 a2 a3 a4 a5 a6 a7 a8 a9 a10 a11 a12 a13 a14 a15 x a17 a18.

Definition set_audioLoops (x : nat) (st : PNGTuber) : PNGTuber :=
  let '(mkPNGTuber a1 a2 a3 a4 a5 a6 a7 a8 a9 a10 a11 a12 a13 a14 a15 a16 _ a18) := st in
  mkPNGTuber a1 a2 a3 a4 a5 a6 a7 a8 a9 a10 a11 a12 a13 a14 a15 a16 x a18.

Definition set_micDenied (x : bool) (st : PNGTuber) : PNGTuber :=
  let '(mkPNGTuber a1 a2 a3 a4 a5 a6 a7 a8 a9 a10 a11 a12 a13 a14 a15 a16 a17 _) := st in
  mkPNGTuber a1 a2 a3 a4 a5 a6 a7 a8 a9 a10 a11 a12 a13 a14 a15 a16 a17 x.

(** ** The talk state machine *)

(** [updateMouthState()]: adds or removes the class [talking] according to
    [this.isTalking]; the log keeps the value shown. *)
Definition updateMouthState (st : PNGTuber) : PNGTuber :=
  set_mouth (mouth st ++ [isTalking st]) st.

(** [processVolume(volume)], shared between the microphone and OBS modes. *)
Definition processVolume (volume : Q) (st : PNGTuber) : PNGTuber :=
  let st := set_smoothedVolume (smoothedVolume st * 0.7 + volume * 0.3) st in
  let st :=
    match volumeBar st with
    | Some _ => set_volumeBar (Some (smoothedVolume st)) st
    | None => st
    end in
  let shouldTalk := JS.gt (smoothedVolume st) (threshold st) in
  if Bool.eqb shouldTalk (isTalking st) then st
  else updateMouthState (set_isTalking shouldTalk st).

(** A stream of samples handed to [processVolume] one after the other. *)
Definition feed (samples : list Q) (st : PNGTuber) : PNGTuber :=
  fold_left (fun s v => processVolume v s) samples st.

(** ** The OBS WebSocket client *)

(** [ws.close()]: starts the closing handshake unless it has started. *)
Definition ws_close (rs : ReadyState) : ReadyState :=
  match rs with
  | CONNECTING | OPEN => CLOSING
  | CLOSING | CLOSED => rs
  end.

(** [obsSend(data)] *)
Definition obsSend (data : Outgoing) (st : PNGTuber) : PNGTuber :=
  match obsWebSocket st with
  | Some OPEN => set_wire (wire st ++ [data]) st
  | _ => st
  end.

(** [obsAuthenticate()] *)
Definition obsAuthenticate (st : PNGTuber) : PNGTuber :=
  obsSend (Identify 1 (Some (obsPassword st))) st.

(** [handleOBSVolumeResponse(data)] *)
Definition handleOBSVolumeResponse (data : option ResponseData) (st : PNGTuber) : PNGTuber :=
  match data with
  | Some {| inputVolumeMul := Some mul |} =>
      let volume := JS.Math_min 100 (JS.Math_max 0 (mul * 100)) in
      processVolume volume st
  | _ => st
  end.

(** The closure [pollAudio] of [startOBSAudioLoop]; [now] is [Date.now()]. *)
Definition pollAudio (now : Z) (st : PNGTuber) : PNGTuber :=
  if negb (obsConnected st) then st
  else
    let st :=
      obsSend (Request "GetInputVolume" ("vol_" ++ JS.toString now) (obsAudioSource st)) st in
    set_pollTimers (S (pollTimers st)) st.

(** [startOBSAudioLoop()]: the first [pollAudio()] is a direct call. *)
Definition startOBSAudioLoop (now : Z) (st : PNGTuber) : PNGTuber :=
  pollAudio now st.

(** [handleOBSMessage(message)] *)
Definition handleOBSMessage (now : Z) (message : Message) (st : PNGTuber) : PNGTuber :=
  if (op message =? 0)%Z then
    obsSend (Identify 1 None) st
  else if (op message =? 2)%Z then
    startOBSAudioLoop now st
  else if (op message =? 7)%Z then
    match d message with
    | Some md =>
        match requestType md with
        | Some rt =>
            if String.eqb rt "GetInputVolume"
            then handleOBSVolumeResponse (responseData md) st
            else st
        | None => st
        end
    | None => st
    end
  else st.

(** ** Local microphone capture *)

(** [analyser.frequencyBinCount], half of [fftSize = 256]. *)
Definition frequencyBinCount : nat := 128.

(** [analyser.getByteFrequencyData(this.dataArray)]: the [Uint8Array] of
    [frequencyBinCount] bytes, filled from the bins of the analyser. *)
Definition getByteFrequencyData (bins : list Byte.byte) : list Byte.byte :=
  firstn frequencyBinCount (bins ++ repeat Byte.x00 frequencyBinCount).

(** [initAudio()] up to its [await]: asks the browser for the microphone. *)
Definition initAudio (st : PNGTuber) : PNGTuber :=
  set_micRequests (S (micRequests st)) (set_initAudioCalls (S (initAudioCalls st)) st).

(** The volume that [processAudio] computes from the bins: the mean of the
    bytes, rescaled to 0..100 and rounded. *)
Definition binsVolume (dataArray : list Byte.byte) : Z :=
  let sum := fold_left (fun acc b => (acc + Z.of_N (Byte.to_N b))%Z) dataArray 0%Z in
  let average := inject_Z sum / inject_Z (Z.of_nat (List.length dataArray)) in
  JS.Math_round ((average / 255) * 100).

(** The closure [processAudio] of [startAudioLoop]; it ends by asking for
    the next animation frame, so the loop stays scheduled. *)
Definition processAudio (bins : list Byte.byte) (st : PNGTuber) : PNGTuber :=
  let dataArray := getByteFrequencyData bins in
  let volume := binsVolume dataArray in
  processVolume (inject_Z volume) st.

(** [startAudioLoop()]: the first [processAudio()] is a direct call. *)
Definition startAudioLoop (bins : list Byte.byte) (st : PNGTuber) : PNGTuber :=
  processAudio bins (set_audioLoops (S (audioLoops st)) st).

(** [initAudio()] after its [await], when the microphone is granted ... *)
Definition initAudio_granted (bins : list Byte.byte) (st : PNGTuber) : PNGTuber :=
  startAudioLoop bins st.

(** ... and its [catch] block, when it is refused. *)
Definition initAudio_denied (st : PNGTuber) : PNGTuber :=
  set_micDenied true st.

(** ** [initOBSWebSocket] and the callbacks it installs *)

Definition onopen (now : Z) (st : PNGTuber) : PNGTuber :=
  let st := set_obsConnected true st in
  if JS.truthy (obsPassword st) then obsAuthenticate st
  else startOBSAudioLoop now st.

Definition onmessage (now : Z) (message : Message) (st : PNGTuber) : PNGTuber :=
  handleOBSMessage now message st.

Definition onerror (st : PNGTuber) : PNGTuber :=
  initAudio st.

Definition onclose (st : PNGTuber) : PNGTuber :=
  set_obsConnected false st.

(** The callback of [setTimeout(..., 3000)]. *)
Definition onTimeout (st : PNGTuber) : PNGTuber :=
  if negb (obsConnected st) then
    let st :=
      match obsWebSocket st with
      | Some rs => set_obsWebSocket (Some (ws_close rs)) st
      | None => st
      end in
    initAudio st
  else st.

(** [initOBSWebSocket()]; [throws] tells whether [new WebSocket(wsUrl)]
    raises, which the [catch] block answers with [initAudio()]. *)
Definition initOBSWebSocket (throws : bool) (st : PNGTuber) : PNGTuber :=
  if throws then initAudio st
  else
    let st := set_obsWebSocket (Some CONNECTING) (set_sockets (S (sockets st)) st) in
    set_deadline true st.

(** ** Construction *)

(** What the page is loaded with: the query string, whether the document
    has the element [volume-bar], and whether [new WebSocket] raises. *)
Record Page := {
  search : URLSearchParams;
  volumeBarElement : bool;
  webSocketThrows : bool
}.

(** [parseURLParams()], without the colours and the settings panel. *)
Definition parseURLParams (params : URLSearchParams) (st : PNGTuber) : PNGTuber :=
  let st :=
    match params_get params "threshold" with
    | Some v => set_threshold (JS.parseInt v) st
    | None => st
    end in
  let st := set_obsPort (JS.or_default (params_get params "port") "4455") st in
  let st := set_obsPassword (JS.or_default (params_get params "password") "") st in
  match params_get params "source" with
  | Some v => set_obsAudioSource v st
  | None => st
  end.

(** [checkOBSMode()] *)
Definition checkOBSMode (page : Page) (st : PNGTuber) : PNGTuber :=
  match params_get (search page) "obs" with
  | Some v => if String.eqb v "true" then initOBSWebSocket (webSocketThrows page) st else st
  | None => st
  end.

(** The fields as the constructor assigns them before it calls a method. *)
Definition fresh (page : Page) : PNGTuber := {|
  obsWebSocket := None;
  obsConnected := false;
  obsAudioSource := "Mic/Aux";
  obsPort := "";
  obsPassword := "";
  threshold := Some 20%Z;
  isTalking := false;
  smoothedVolume := 0;
  volumeBar := if volumeBarElement page then Some 0 else None;
  mouth := [];
  wire := [];
  sockets := 0;
  deadline := false;
  pollTimers := 0;
  micRequests := 0;
  initAudioCalls := 0;
  audioLoops := 0;
  micDenied := false
|}.

(** [new PNGTuber()] *)
Definition constructor (page : Page) : PNGTuber :=
  let st := fresh page in
  let st := parseURLParams (search page) st in
  checkOBSMode page st.

(** ** The browser's side: the callbacks it may invoke *)

Inductive Event :=
| WsOpen (now : Z)
| WsMessage (now : Z) (message : Message)
| WsClose (failed : bool)
| Timeout3000
| PollTimer (now : Z)
| MicGranted (bins : list Byte.byte)
| MicDenied
| Frame (bins : list Byte.byte)
| ClickEnableMic
| ThresholdInput (value : string).

(** One task of the event loop.  An event the browser cannot deliver in the
    current state (a message on a socket that is not open, a timer that is
    not pending) leaves the state as it is.  The browser sets [readyState]
    before it fires [open]; when the connection is closed it sets
    [readyState] to [CLOSED], fires [error] if it had to fail the connection
    ([failed]), and then fires [close], all in one task. *)
Definition step (st : PNGTuber) (e : Event) : PNGTuber :=
  match e with
  | WsOpen now =>
      match obsWebSocket st with
      | Some CONNECTING => onopen now (set_obsWebSocket (Some OPEN) st)
      | _ => st
      end
  | WsMessage now message =>
      match obsWebSocket st with
      | Some OPEN => onmessage now message st
      | _ => st
      end
  | WsClose failed =>
      match obsWebSocket st with
      | Some CLOSED | None => st
      | Some _ =>
          let st := set_obsWebSocket (Some CLOSED) st in
          let st := if failed then onerror st else st in
          onclose st
      end
  | Timeout3000 =>
      if deadline st then onTimeout (set_deadline false st) else st
  | PollTimer now =>
      match pollTimers st with
      | S n => pollAudio now (set_pollTimers n st)
      | O => st
      end
  | MicGranted bins =>
      match micRequests st with
      | S n => initAudio_granted bins (set_micRequests n st)
      | O => st
      end
  | MicDenied =>
      match micRequests st with
      | S n => initAudio_denied (set_micRequests n st)
      | O => st
      end
  | Frame bins =>
      match audioLoops st with
      | S _ => processAudio bins st
      | O => st
      end
  | ClickEnableMic => initAudio st
  | ThresholdInput value => set_threshold (JS.parseInt value) st
  end.

(** A session: the callbacks of a list of events, in order. *)
Definition run (st : PNGTuber) (events : list Event) : PNGTuber :=
  fold_left step events st.

(** The remote source polls when a poll timer is pending on a connection
    the page holds to be connected, and it can deliver a sample only through
    an open socket; the local source is live when a [processAudio] loop
    runs. *)
Definition remoteActive (st : PNGTuber) : bool :=
  obsConnected st && negb (pollTimers st =? 0)%nat.

Definition socketOpen (st : PNGTuber) : bool :=
  match obsWebSocket st with
  | Some OPEN => true
  | _ => false
  end.

Definition localActive (st : PNGTuber) : bool :=
  negb (audioLoops st =? 0)%nat.

(** ** The microphone-only variant of the class

    The earlier version of the file has no OBS client and no
    [processVolume]; its [processAudio] smooths and thresholds in line. *)

Module MicOnly.

Record PNGTuber := mkPNGTuber {
  threshold : option Z;
  isTalking : bool;
  smoothedVolume : Q;
  volumeBar : option Q;
  mouth : list bool;
  micRequests : nat;
  audioLoops : nat
}.

Definition updateMouthState (st : PNGTuber) : PNGTuber :=
  let '(mkPNGTuber a1 a2 a3 a4 a5 a6 a7) := st in
  mkPNGTuber a1 a2 a3 a4 (a5 ++ [a2]) a6 a7.

(** The closure [processAudio] of [startAudioLoop]. *)
Definition processAudio (bins : list Byte.byte) (st : PNGTuber) : PNGTuber :=
  let dataArray := getByteFrequencyData bins in
  let volume := binsVolume dataArray in
  let '(mkPNGTuber a1 a2 a3 a4 a5 a6 a7) := st in
  let smoothed := a3 * 0.7 + inject_Z volume * 0.3 in
  let bar := match a4 with Some _ => Some smoothed | None => None end in
  let shouldTalk := JS.gt smoothed a1 in
  if Bool.eqb shouldTalk a2 then mkPNGTuber a1 a2 smoothed bar a5 a6 a7
  else updateMouthState (mkPNGTuber a1 shouldTalk smoothed bar a5 a6 a7).

Definition initAudio (st : PNGTuber) : PNGTuber :=
  let '(mkPNGTuber a1 a2 a3 a4 a5 a6 a7) := st in
  mkPNGTuber a1 a2 a3 a4 a5 (S a6) a7.

(** [new PNGTuber()]: the defaults, [parseURLParams], [checkOBSMode]. *)
Definition constructor (page : Page) : PNGTuber :=
  let st := {|
    threshold := Some 20%Z;
    isTalking := false;
    smoothedVolume := 0;
    volumeBar := if volumeBarElement page then Some 0 else None;
    mouth := [];
    micRequests := 0;
    audioLoops := 0
  |} in
  let st :=
    match params_get (search page) "threshold" with
    | Some v =>
        let '(mkPNGTuber _ a2 a3 a4 a5 a6 a7) := st in
        mkPNGTuber (JS.parseInt v) a2 a3 a4 a5 a6 a7
    | None => st
    end in
  match params_get (search page) "obs" with
  | Some v => if String.eqb v "true" then initAudio st else st
  | None => st
  end.

End MicOnly.

(** ** The smoothing assignment in double arithmetic

    [this.smoothedVolume = this.smoothedVolume * 0.7 + volume * 0.3] as the
    browser evaluates it, on IEEE-754 binary64 numbers. *)

Module Binary64.

Import PrimFloat.
#[local] Set Warnings "-inexact-float".

Definition smoothing (smoothedVolume volume : float) : float :=
  (smoothedVolume * 0.7 + volume * 0.3)%float.


(** [this.smoothedVolume = 0] of the constructor. *)
Definition fresh : float := 0%float.

(** A stream of samples smoothed one after the other. *)
Definition feed (samples : list float) (s : float) : float :=
  fold_left smoothing samples s.


End Binary64.

(** ** Pages and frames used as examples *)

(** A page whose query string is [?threshold=30]. *)
Definition page_threshold30 : Page :=
  {| search := [("threshold", "30")]%string;
     volumeBarElement := true; webSocketThrows := false |}.

(** A page loaded with [?obs=true], and one that also names a password. *)
Definition page_obs : Page :=
  {| search := [("obs", "true")]%string;
     volumeBarElement := true; webSocketThrows := false |}.

Definition page_obs_password : Page :=
  {| search := [("obs", "true"); ("password", "s3cret")]%string;
     volumeBarElement := true; webSocketThrows := false |}.

(** The hello frame (op 0) of the server. *)
Definition hello : Message := {| op := 0; d := None |}.

(** A response frame to [GetInputVolume] that defines [inputVolumeMul]. *)
Definition volumeResponse (mul : Q) : Message :=
  {| op := 7;
     d := Some {| requestType := Some "GetInputVolume"%string;
                  responseData := Some {| inputVolumeMul := Some mul |} |} |}.

(** ** The specification's vocabulary *)

(** [clamp(x, lo, hi)] as the specification uses it for the remote sample. *)
Definition clamp (x lo hi : Q) : Q :=
  if Qlt_le_dec x lo then lo else if Qlt_le_dec hi x then hi else x.

(** The samples of a run stay on side [b] of the threshold: after each of
    them [smoothedVolume > threshold] has the value [b]. *)
Fixpoint same_side (b : bool) (samples : list Q) (st : PNGTuber) : bool :=
  match samples with
  | [] => true
  | v :: rest =>
      let st' := processVolume v st in
      Bool.eqb (JS.gt (smoothedVolume st') (threshold st')) b && same_side b rest st'
  end.

(** What holds of every state a session reaches: one socket at most, and a
    pending 3000 ms timer only next to the socket it was armed for. *)
Definition session_inv (st : PNGTuber) : Prop :=
  (sockets st <= 1)%nat /\ (deadline st = true -> obsWebSocket st <> None).

(** No fallback has run and one of its two triggers is out of the way: the
    3000 ms timer is no longer pending, or the socket is closed (or was
    never created), so that no transport error can follow. *)
Definition one_trigger_left (st : PNGTuber) : Prop :=
  initAudioCalls st = 0%nat
  /\ (deadline st = false \/ obsWebSocket st = Some CLOSED \/ obsWebSocket st = None).

(** ... or the one fallback has run and neither trigger is left. *)
Definition at_most_one_fallback (st : PNGTuber) : Prop :=
  one_trigger_left st
  \/ (initAudioCalls st = 1%nat /\ deadline st = false
      /\ (obsWebSocket st = Some CLOSED \/ obsWebSocket st = None)).

(** The click on the microphone button, the one call of [initAudio] that
    the user and not the fallback decides. *)
Definition is_click (e : Event) : bool :=
  match e with
  | ClickEnableMic => true
  | _ => false
  end.

(** The page holds the connection to be down and the socket can neither
    open nor deliver a message any more. *)
Definition remote_given_up (st : PNGTuber) : Prop :=
  obsConnected st = false
  /\ obsWebSocket st <> Some CONNECTING /\ obsWebSocket st <> Some OPEN.

(** The microphone has not been asked for. *)
Definition local_untouched (st : PNGTuber) : Prop :=
  initAudioCalls st = 0%nat /\ micRequests st = 0%nat /\ audioLoops st = 0%nat.

(** ** The colour helpers *)

(** JavaScript primitives of [lightenColor] and [darkenColor].  A number is
    an exact integer here, or [None] for [NaN]. *)
Module JSColor.

(** The value of a hexadecimal digit, in either case. *)
Definition hex_digit_of (c : ascii) : option Z :=
  let n := nat_of_ascii c in
  if ((48 <=? n) && (n <=? 57))%nat then Some (Z.of_nat n - 48)%Z
  else if ((97 <=? n) && (n <=? 102))%nat then Some (Z.of_nat n - 87)%Z
  else if ((65 <=? n) && (n <=? 70))%nat then Some (Z.of_nat n - 55)%Z
  else None.

(** The longest prefix of hexadecimal digits, as [JS.digits] does in base
    ten. *)
Fixpoint hex_digits (s : string) (seen : bool) (acc : Z) : option Z :=
  match s with
  | String c rest =>
      match hex_digit_of c with
      | Some k => hex_digits rest true (16 * acc + k)%Z
      | None => if seen then Some acc else None
      end
  | EmptyString => if seen then Some acc else None
  end.

(** With radix 16 a prefix [0x] or [0X] is skipped. *)
Definition strip_0x (s : string) : string :=
  match s with
  | String "0"%char (String "x"%char rest) => rest
  | String "0"%char (String "X"%char rest) => rest
  | _ => s
  end.

(** [parseInt(s, 16)] *)
Definition parseInt16 (s : string) : option Z :=
  match JS.skip_spaces s with
  | String "-"%char rest => option_map Z.opp (hex_digits (strip_0x rest) false 0%Z)
  | String "+"%char rest => hex_digits (strip_0x rest) false 0%Z
  | t => hex_digits (strip_0x t) false 0%Z
  end.

(** [s.replace('#', '')]: the first [#] of [s] is removed. *)
Fixpoint replace_hash (s : string) : string :=
  match s with
  | String c rest => if Ascii.eqb c "#" then rest else String c (replace_hash rest)
  | EmptyString => EmptyString
  end.

(** [ToInt32], which the operators [>>] and [&] apply to their operands:
    [NaN] becomes 0 and an integer wraps into the signed 32-bit range. *)
Definition ToInt32 (x : option Z) : Z :=
  match x with
  | Some z => ((z + 2147483648) mod 4294967296 - 2147483648)%Z
  | None => 0%Z
  end.

(** [n.toString(16)] for an integer [n]: lower-case digits, a leading [-]
    for a negative number. *)
Definition toString16 (z : Z) : string :=
  HexadecimalString.NilZero.string_of_int (Z.to_hex_int z).

(** [s.slice(1)] *)
Definition slice1 (s : string) : string :=
  match s with
  | String _ rest => rest
  | EmptyString => EmptyString
  end.

End JSColor.

(** [lightenColor(hex, percent)] *)
Definition lightenColor (hex : string) (percent : Q) : string :=
  let num := JSColor.parseInt16 (JSColor.replace_hash hex) in
  let amt := JS.Math_round (2.55 * percent) in
  let R := Z.min 255 (Z.shiftr (JSColor.ToInt32 num) 16 + amt) in
  let G := Z.min 255 (Z.land (Z.shiftr (JSColor.ToInt32 num) 8) 255 + amt) in
  let B := Z.min 255 (Z.land (JSColor.ToInt32 num) 255 + amt) in
  String "#" (JSColor.slice1
                (JSColor.toString16 (16777216 + R * 65536 + G * 256 + B)%Z)).

(** [darkenColor(hex, percent)] *)
Definition darkenColor (hex : string) (percent : Q) : string :=
  let num := JSColor.parseInt16 (JSColor.replace_hash hex) in
  let amt := JS.Math_round (2.55 * percent) in
  let R := Z.max 0 (Z.shiftr (JSColor.ToInt32 num) 16 - amt) in
  let G := Z.max 0 (Z.land (Z.shiftr (JSColor.ToInt32 num) 8) 255 - amt) in
  let B := Z.max 0 (Z.land (JSColor.ToInt32 num) 255 - amt) in
  String "#" (JSColor.slice1
                (JSColor.toString16 (16777216 + R * 65536 + G * 256 + B)%Z)).

(** The gradient stops of the avatar that the colour setters write: the
    [stop-color] attribute of each element, or [None] when the document has
    no such element. *)
Record Gradients := {
  skin_light : option string;
  skin_base : option string;
  beard_light : option string;
  beard_dark : option string
}.

(** [setSkinColor(color)] *)
Definition setSkinColor (color : string) (g : Gradients) : Gradients :=
  match skin_light g, skin_base g with
  | Some _, Some _ =>
      {| skin_light := Some (lightenColor color 20);
         skin_base := Some color;
         beard_light := beard_light g;
         beard_dark := beard_dark g |}
  | _, _ => g
  end.

(** [setBeardColor(color)] *)
Definition setBeardColor (color : string) (g : Gradients) : Gradients :=
  match beard_light g, beard_dark g with
  | Some _, Some _ =>
      {| skin_light := skin_light g;
         skin_base := skin_base g;
         beard_light := Some (lightenColor color 15);
         beard_dark := Some (darkenColor color 20) |}
  | _, _ => g
  end.

(** The colours of [parseURLParams()]: the parameters [skin] and [beard]
    carry a colour without its [#]. *)
Definition parseURLParams_colors (params : URLSearchParams) (g : Gradients) : Gradients :=
  let g :=
    match params_get params "skin" with
    | Some v => setSkinColor (String "#" v) g
    | None => g
    end in
  match params_get params "beard" with
  | Some v => setBeardColor (String "#" v) g
  | None => g
  end.

(** Two lower-case hexadecimal digits of a channel, and the six of a
    colour. *)
Definition hex_char (k : Z) : ascii :=
  if (k <? 10)%Z then ascii_of_nat (Z.to_nat k + 48) else ascii_of_nat (Z.to_nat k + 87).

Definition hex2 (c : Z) (rest : string) : string :=
  String (hex_char (c / 16)) (String (hex_char (c mod 16)) rest).

Definition hex6 (r g b : Z) : string :=
  hex2 r (hex2 g (hex2 b EmptyString)).

(** ** Vocabulary for the properties of a session *)

(** The part of the object that the talk state machine reads and writes. *)
Definition talk (st : PNGTuber) : option Z * bool * Q * list bool :=
  (threshold st, isTalking st, smoothedVolume st, mouth st).

(** One update of the talk state machine on that part. *)
Definition next_talk (v : Q) (t : option Z * bool * Q * list bool)
    : option Z * bool * Q * list bool :=
  let '(thr, talking, s, log) := t in
  let s' := s * 0.7 + v * 0.3 in
  let shouldTalk := JS.gt s' thr in
  (thr, shouldTalk, s', if Bool.eqb shouldTalk talking then log else log ++ [shouldTalk]).

(** The log of mouth events alternates, starting with [expected]. *)
Fixpoint alternates (expected : bool) (log : list bool) : bool :=
  match log with
  | [] => true
  | x :: rest => Bool.eqb x expected && alternates (negb expected) rest
  end.

Definition is_threshold_input (e : Event) : bool :=
  match e with
  | ThresholdInput _ => true
  | _ => false
  end.

(** The clicks on the microphone button among the events of a session. *)
Definition clicks (events : list Event) : nat :=
  List.length (filter is_click events).

(** A frame carries the password. *)
Definition carries_password (f : Outgoing) : bool :=
  match f with
  | Identify _ (Some _) => true
  | _ => false
  end.

(** The frames a client configured with password [pw] and input [src] may
    send. *)
Definition frame_allowed (pw src : string) (f : Outgoing) : Prop :=
  match f with
  | Identify v auth => v = 1%Z /\ (auth = None \/ (auth = Some pw /\ pw <> EmptyString))
  | Request rt id name =>
      rt = "GetInputVolume"%string /\ name = src
      /\ exists now : Z, id = ("vol_" ++ JS.toString now)%string
  end.

(** The weight that is left of the old smoothed volume after [n] updates. *)
Fixpoint decay (n : nat) : Q :=
  match n with
  | O => 1
  | S k => 0.7 * decay k
  end.

(** The two variants of the class agree on what the talk state machine
    uses. *)
Definition agree (m : MicOnly.PNGTuber) (st : PNGTuber) : Prop :=
  MicOnly.threshold m = threshold st
  /\ MicOnly.isTalking m = isTalking st
  /\ MicOnly.smoothedVolume m = smoothedVolume st
  /\ MicOnly.volumeBar m = volumeBar st
  /\ MicOnly.mouth m = mouth st.

(** Bin by bin, [bins] is no louder than [bins']. *)
Definition bins_le (bins bins' : list Byte.byte) : Prop :=
  Forall2 (fun a b => (Byte.to_N a <= Byte.to_N b)%N) bins bins'.


(** ** Vocabulary for the proofs *)

(** The digit of [Hexadecimal.uint] with value [k]. *)
Definition hex_cons (k : Z) (d : Hexadecimal.uint) : Hexadecimal.uint :=
  match k with
  | 0 => Hexadecimal.D0 d | 1 => Hexadecimal.D1 d | 2 => Hexadecimal.D2 d
  | 3 => Hexadecimal.D3 d | 4 => Hexadecimal.D4 d | 5 => Hexadecimal.D5 d
  | 6 => Hexadecimal.D6 d | 7 => Hexadecimal.D7 d | 8 => Hexadecimal.D8 d
  | 9 => Hexadecimal.D9 d | 10 => Hexadecimal.Da d | 11 => Hexadecimal.Db d
  | 12 => Hexadecimal.Dc d | 13 => Hexadecimal.Dd d | 14 => Hexadecimal.De d
  | _ => Hexadecimal.Df d
  end%Z.

(** The invariant behind the mouth log. *)
Definition mouth_inv (st : PNGTuber) : Prop :=
  alternates true (mouth st) = true /\ isTalking st = last (mouth st) false.

(** The socket has not opened yet: there is none, or it is connecting. *)
Definition not_yet_open (st : PNGTuber) : Prop :=
  obsWebSocket st = None \/ obsWebSocket st = Some CONNECTING.

(** What holds of the frames sent so far, for a client configured with
    password [pw] and input [src]. *)
Definition wire_inv (pw src : string) (st : PNGTuber) : Prop :=
  obsPassword st = pw /\ obsAudioSource st = src
  /\ Forall (frame_allowed pw src) (wire st)
  /\ forallb (fun f => negb (carries_password f)) (tl (wire st)) = true
  /\ (not_yet_open st -> wire st = []).

(** The value of a decimal numeral read after the digits [acc]. *)
Fixpoint decimal_value (d : Decimal.uint) (acc : Z) : Z :=
  match d with
  | Decimal.Nil => acc
  | Decimal.D0 l => decimal_value l (10 * acc + 0)
  | Decimal.D1 l => decimal_value l (10 * acc + 1)
  | Decimal.D2 l => decimal_value l (10 * acc + 2)
  | Decimal.D3 l => decimal_value l (10 * acc + 3)
  | Decimal.D4 l => decimal_value l (10 * acc + 4)
  | Decimal.D5 l => decimal_value l (10 * acc + 5)
  | Decimal.D6 l => decimal_value l (10 * acc + 6)
  | Decimal.D7 l => decimal_value l (10 * acc + 7)
  | Decimal.D8 l => decimal_value l (10 * acc + 8)
  | Decimal.D9 l => decimal_value l (10 * acc + 9)
  end%Z.

(** A session in which the socket opens, two loud responses arrive, the
    connection fails and the microphone takes over with silence. *)
Definition sample_events : list Event :=
  [WsOpen 1700000000100;
   WsMessage 1700000000120 (volumeResponse 0.9);
   WsMessage 1700000000140 (volumeResponse 0.9);
   WsClose true;
   MicGranted (repeat Byte.x00 128);
   Frame (repeat Byte.x00 128)].

Definition page_threshold (value : string) : Page :=
  {| search := [("obs", "true"); ("threshold", value)]%string;
     volumeBarElement := true; webSocketThrows := false |}.

(** * Properties *)

(** ** Tactics for the record and the callbacks *)

Ltac record_cases st :=
  destruct st as [ws conn src port pw thr talk sm bar mo wi so dl pt mr ia al md].

Ltac split_matches :=
  repeat match goal with
         | |- context [negb ?b] => is_var b; destruct b; cbn [negb]
         | |- context [ws_close ?r] => is_var r; destruct r; cbn [ws_close]
         | |- context [match ?x with _ => _ end] => destruct x
         | |- context [if ?x then _ else _] => destruct x
         end.

Ltac unfold_methods :=
  unfold step, onopen, onmessage, onerror, onclose, onTimeout, handleOBSMessage,
    handleOBSVolumeResponse, startOBSAudioLoop, pollAudio, obsAuthenticate, obsSend,
    initAudio_granted, initAudio_denied, startAudioLoop, processAudio, initAudio,
    processVolume, updateMouthState.

Ltac project_fields :=
  cbn [set_obsWebSocket set_obsConnected set_obsAudioSource set_obsPort set_obsPassword
       set_threshold set_isTalking set_smoothedVolume set_volumeBar set_mouth set_wire
       set_sockets set_deadline set_pollTimers set_micRequests set_initAudioCalls
       set_audioLoops set_micDenied
       obsWebSocket obsConnected obsAudioSource obsPort obsPassword threshold isTalking
       smoothedVolume volumeBar mouth wire sockets deadline pollTimers micRequests
       initAudioCalls audioLoops micDenied negb ws_close].

(** Every callback on every shape of the record. *)
Ltac frame_step st e :=
  record_cases st; destruct e; unfold_methods; project_fields; split_matches.

(** The branches of the constructor. *)
Ltac constructor_cases page :=
  unfold constructor, checkOBSMode, parseURLParams, initOBSWebSocket, initAudio, fresh;
  destruct (params_get (search page) "threshold");
  destruct (params_get (search page) "source");
  destruct (params_get (search page) "obs") as [v|];
  try destruct (String.eqb v "true");
  try destruct (webSocketThrows page).

(** ** Projections of [processVolume] *)

Ltac processVolume_cases st :=
  record_cases st; unfold processVolume;
  cbn [set_smoothedVolume smoothedVolume volumeBar];
  match goal with
  | |- context [match ?bar with Some _ => _ | None => _ end] => destruct bar
  end;
  cbn [set_volumeBar smoothedVolume threshold isTalking mouth].

Lemma processVolume_smoothedVolume (v : Q) (st : PNGTuber) :
  smoothedVolume (processVolume v st) = smoothedVolume st * 0.7 + v * 0.3.
Proof.
  processVolume_cases st;
    match goal with |- context [Bool.eqb ?a ?b] => destruct (Bool.eqb a b) end;
    reflexivity.
Qed.

Lemma processVolume_threshold (v : Q) (st : PNGTuber) :
  threshold (processVolume v st) = threshold st.
Proof.
  processVolume_cases st;
    match goal with |- context [Bool.eqb ?a ?b] => destruct (Bool.eqb a b) end;
    reflexivity.
Qed.

Lemma processVolume_isTalking (v : Q) (st : PNGTuber) :
  isTalking (processVolume v st)
  = JS.gt (smoothedVolume st * 0.7 + v * 0.3) (threshold st).
Proof.
  processVolume_cases st;
    match goal with |- context [Bool.eqb ?a ?b] => destruct (Bool.eqb a b) eqn:E end;
    try reflexivity; apply Bool.eqb_prop in E; cbn; congruence.
Qed.

Lemma processVolume_mouth (v : Q) (st : PNGTuber) :
  mouth (processVolume v st)
  = let shouldTalk := JS.gt (smoothedVolume st * 0.7 + v * 0.3) (threshold st) in
    if Bool.eqb shouldTalk (isTalking st) then mouth st else mouth st ++ [shouldTalk].
Proof.
  processVolume_cases st;
    match goal with |- context [Bool.eqb ?a ?b] => destruct (Bool.eqb a b) end;
    reflexivity.
Qed.

Lemma constructor_smoothedVolume (page : Page) :
  smoothedVolume (constructor page) = 0.
Proof. constructor_cases page; reflexivity. Qed.

(** ** The talk state machine *)

(** C5: one update of the talk state machine sets the smoothed volume to
    exactly [s*0.7 + v*0.3], where [s] is the previous smoothed volume and
    [v] the sample, on every path that delivers a sample: [processVolume]
    itself, the OBS response handler, the microphone loop of [js/app.js] and
    the microphone loop of the microphone-only variant. *)
Theorem smoothing_is_ema (st : PNGTuber) (m : MicOnly.PNGTuber)
    (v mul : Q) (bins : list Byte.byte) :
  smoothedVolume (processVolume v st) = smoothedVolume st * 0.7 + v * 0.3
  /\ smoothedVolume (handleOBSVolumeResponse (Some {| inputVolumeMul := Some mul |}) st)
     = smoothedVolume st * 0.7 + JS.Math_min 100 (JS.Math_max 0 (mul * 100)) * 0.3
  /\ smoothedVolume (processAudio bins st)
     = smoothedVolume st * 0.7
       + inject_Z (binsVolume (getByteFrequencyData bins)) * 0.3
  /\ MicOnly.smoothedVolume (MicOnly.processAudio bins m)
     = MicOnly.smoothedVolume m * 0.7
       + inject_Z (binsVolume (getByteFrequencyData bins)) * 0.3.
Proof.
  repeat split.
  - apply processVolume_smoothedVolume.
  - cbn [handleOBSVolumeResponse]. apply processVolume_smoothedVolume.
  - unfold processAudio. apply processVolume_smoothedVolume.
  - destruct m as [thr talk sm bar mo mr al]. unfold MicOnly.processAudio.
    match goal with |- context [Bool.eqb ?a ?b] => destruct (Bool.eqb a b) end;
      reflexivity.
Qed.

(** C6: [processVolume] calls [updateMouthState] exactly when
    [smoothedVolume > threshold], a strict comparison made after smoothing,
    differs from [isTalking], and the event carries the new value; a
    smoothed volume equal to the threshold leaves the avatar not talking;
    and a run of samples after which the comparison keeps the value that
    [isTalking] already has produces no event at all. *)
Theorem transitions_are_edge_triggered (st : PNGTuber) (v : Q) :
  let s' := smoothedVolume st * 0.7 + v * 0.3 in
  let shouldTalk := JS.gt s' (threshold st) in
  (mouth (processVolume v st)
   = if Bool.eqb shouldTalk (isTalking st) then mouth st else mouth st ++ [shouldTalk])
  /\ isTalking (processVolume v st) = shouldTalk
  /\ (forall t : Z, threshold st = Some t ->
        (shouldTalk = true <-> inject_Z t < s')
        /\ (s' == inject_Z t -> isTalking (processVolume v st) = false))
  /\ (forall (b : bool) (samples : list Q),
        isTalking st = b -> same_side b samples st = true ->
        mouth (feed samples st) = mouth st /\ isTalking (feed samples st) = b).
Proof.
  cbn zeta. split; [apply processVolume_mouth|].
  split; [apply processVolume_isTalking|].
  split.
  - intros t Ht. rewrite processVolume_isTalking, Ht. unfold JS.gt. split.
    + rewrite negb_true_iff. split; intro H.
      * apply Qnot_le_lt. intro Hle. apply Qle_bool_iff in Hle. congruence.
      * apply not_true_is_false. intro Hle. apply Qle_bool_iff in Hle.
        apply (Qlt_not_le _ _ H). exact Hle.
    + intro Heq. apply negb_false_iff. apply Qle_bool_iff. rewrite Heq. apply Qle_refl.
  - intros b samples. revert st. induction samples as [|x rest IH]; intros st Hb Hside.
    + split; [reflexivity|exact Hb].
    + cbn [same_side] in Hside. apply andb_true_iff in Hside as [Hx Hrest].
      apply Bool.eqb_prop in Hx.
      rewrite processVolume_smoothedVolume, processVolume_threshold in Hx.
      assert (Htalk : isTalking (processVolume x st) = b)
        by (rewrite processVolume_isTalking; exact Hx).
      destruct (IH (processVolume x st) Htalk Hrest) as [Hm Ht].
      cbn [feed fold_left] in *. unfold feed in Hm, Ht. rewrite Hm, Ht.
      split; [|reflexivity].
      rewrite processVolume_mouth. cbn zeta. rewrite Hx, Hb.
      rewrite Bool.eqb_reflx. reflexivity.
Qed.

Lemma transitions_are_edge_triggered_witness :
  let st0 := constructor page_threshold30 in
  let st := feed [10; 10; 90] st0 in
  (threshold st0 = Some 30%Z
   /\ smoothedVolume st0 * 0.7 + 100 * 0.3 == inject_Z 30
   /\ isTalking (processVolume 100 st0) = false)
  /\ (isTalking st = true /\ same_side true [90; 50] st = true
      /\ mouth (feed [90; 50] st) = mouth st).
Proof.
  cbn zeta. split.
  - assert (Heq : smoothedVolume (constructor page_threshold30) * 0.7 + 100 * 0.3
                  == inject_Z 30) by (vm_compute; reflexivity).
    split; [reflexivity|]. split; [exact Heq|].
    exact (proj2 (proj1 (proj2 (proj2
             (transitions_are_edge_triggered (constructor page_threshold30) 100)))
             30%Z eq_refl) Heq).
  - split; [reflexivity|]. split; [reflexivity|].
    exact (proj1 (proj2 (proj2 (proj2
             (transitions_are_edge_triggered
                (feed [10; 10; 90] (constructor page_threshold30)) 0)))
             true [90; 50] eq_refl eq_refl)).
Defined.

(** C10: the smoothing update is monotone in the sample for a fixed previous
    smoothed volume, and monotone in the previous smoothed volume for a
    fixed sample. *)
Theorem smoothing_is_monotone (st st' : PNGTuber) (v v' : Q) :
  (v <= v' ->
   smoothedVolume (processVolume v st) <= smoothedVolume (processVolume v' st))
  /\ (smoothedVolume st <= smoothedVolume st' ->
      smoothedVolume (processVolume v st) <= smoothedVolume (processVolume v st')).
Proof.
  rewrite !processVolume_smoothedVolume. split; intro H; lra.
Qed.

Lemma smoothing_is_monotone_witness :
  let st := feed [10] (constructor page_threshold30) in
  let st' := feed [90] (constructor page_threshold30) in
  (20 <= 60 /\ smoothedVolume (processVolume 20 st) <= smoothedVolume (processVolume 60 st))
  /\ (smoothedVolume st <= smoothedVolume st'
      /\ smoothedVolume (processVolume 20 st) <= smoothedVolume (processVolume 20 st')).
Proof.
  cbn zeta.
  pose proof (smoothing_is_monotone
                (feed [10] (constructor page_threshold30))
                (feed [90] (constructor page_threshold30)) 20 60) as [Hv Hs].
  assert (H1 : 20 <= 60) by discriminate.
  assert (H2 : smoothedVolume (feed [10] (constructor page_threshold30))
               <= smoothedVolume (feed [90] (constructor page_threshold30)))
    by (vm_compute; discriminate).
  split; split.
  - exact H1.
  - exact (Hv H1).
  - exact H2.
  - exact (Hs H2).
Defined.

(** ** The range of the smoothed volume *)

(** The smoothing step is a convex combination of its two inputs. *)
Lemma smoothing_between (s v lo hi : Q) :
  lo <= s <= hi -> lo <= v <= hi -> lo <= s * 0.7 + v * 0.3 <= hi.
Proof. intros [Hs1 Hs2] [Hv1 Hv2]. split; lra. Qed.





(** *** The samples the two sources deliver lie in [0,100] *)

Lemma Math_clamp (x lo hi : Q) :
  lo <= hi -> JS.Math_min hi (JS.Math_max lo x) == clamp x lo hi.
Proof.
  intro Hlh. unfold JS.Math_min, JS.Math_max, clamp.
  destruct (Qle_bool lo x) eqn:E1.
  - apply Qle_bool_iff in E1.
    destruct (Qle_bool hi x) eqn:E2.
    + apply Qle_bool_iff in E2.
      destruct (Qlt_le_dec x lo); [lra|]. destruct (Qlt_le_dec hi x); lra.
    + assert (~ hi <= x) by (rewrite <- Qle_bool_iff; congruence).
      destruct (Qlt_le_dec x lo); [lra|]. destruct (Qlt_le_dec hi x); lra.
  - assert (~ lo <= x) by (rewrite <- Qle_bool_iff; congruence).
    destruct (Qle_bool hi lo) eqn:E2.
    + apply Qle_bool_iff in E2.
      destruct (Qlt_le_dec x lo); [lra|]. destruct (Qlt_le_dec hi x); lra.
    + destruct (Qlt_le_dec x lo); [lra|]. destruct (Qlt_le_dec hi x); lra.
Qed.

Lemma Math_clamp_range (x : Q) :
  0 <= JS.Math_min 100 (JS.Math_max 0 x) <= 100.
Proof.
  assert (H : JS.Math_min 100 (JS.Math_max 0 x) == clamp x 0 100)
    by (apply Math_clamp; discriminate).
  rewrite H. unfold clamp.
  destruct (Qlt_le_dec x 0); [split; discriminate|].
  destruct (Qlt_le_dec 100 x); [split; discriminate|].
  split; assumption.
Qed.

Lemma bytes_sum_bounds (data : list Byte.byte) (acc : Z) :
  (acc <= fold_left (fun a b => a + Z.of_N (Byte.to_N b)) data acc
   <= acc + 255 * Z.of_nat (List.length data))%Z.
Proof.
  revert acc. induction data as [|b rest IH]; intro acc; cbn [fold_left List.length].
  - lia.
  - specialize (IH (acc + Z.of_N (Byte.to_N b))%Z).
    pose proof (Byte.to_N_bounded b). lia.
Qed.

Lemma getByteFrequencyData_length (bins : list Byte.byte) :
  List.length (getByteFrequencyData bins) = frequencyBinCount.
Proof.
  unfold getByteFrequencyData. rewrite length_firstn, length_app, repeat_length. lia.
Qed.

Lemma binsVolume_range (bins : list Byte.byte) :
  0 <= inject_Z (binsVolume (getByteFrequencyData bins)) <= 100.
Proof.
  unfold binsVolume.
  pose proof (bytes_sum_bounds (getByteFrequencyData bins) 0) as Hsum.
  rewrite getByteFrequencyData_length in *. unfold frequencyBinCount in *.
  set (sum := fold_left _ _ _) in *.
  change (Z.of_nat 128) with 128%Z in *.
  assert (H0 : inject_Z 0 <= inject_Z sum) by (rewrite <- Zle_Qle; lia).
  assert (H1 : inject_Z sum <= inject_Z 32640) by (rewrite <- Zle_Qle; lia).
  change (inject_Z 0) with 0 in H0. change (inject_Z 32640) with 32640 in H1.
  set (x := inject_Z sum / inject_Z 128 / 255 * 100).
  assert (Hx : x == inject_Z sum * (100 # 32640)) by (unfold x; field).
  unfold JS.Math_round. split.
  - change 0 with (inject_Z 0). rewrite <- Zle_Qle.
    change 0%Z with (Qfloor 0). apply Qfloor_resp_le. rewrite Hx. lra.
  - change 100 with (inject_Z 100). rewrite <- Zle_Qle.
    assert (Hlt : x + 0.5 < 101) by (rewrite Hx; lra).
    pose proof (Qfloor_le (x + 0.5)) as Hfl.
    assert (Hz : inject_Z (Qfloor (x + 0.5)) < inject_Z 101)
      by (change (inject_Z 101) with 101; lra).
    rewrite <- Zlt_Qlt in Hz. lia.
Qed.

Lemma step_smoothedVolume (st : PNGTuber) (e : Event) :
  smoothedVolume (step st e) = smoothedVolume st
  \/ exists v : Q,
       0 <= v <= 100
       /\ smoothedVolume (step st e) = smoothedVolume st * 0.7 + v * 0.3.
Proof.
  frame_step st e;
    first [ left; reflexivity
          | right; eexists; split;
            [|reflexivity]; first [apply Math_clamp_range | apply binsVolume_range] ].
Qed.

(** Whatever the browser delivers, the smoothed volume of a session stays
    in [0,100]. *)
Lemma session_smoothedVolume_in_range (page : Page) (events : list Event) :
  0 <= smoothedVolume (run (constructor page) events) <= 100.
Proof.
  assert (H0 : 0 <= smoothedVolume (constructor page) <= 100)
    by (rewrite constructor_smoothedVolume; split; discriminate).
  revert H0. generalize (constructor page).
  induction events as [|e rest IH]; intros st Hst; [exact Hst|].
  cbn. apply IH.
  destruct (step_smoothedVolume st e) as [Heq|[v [Hv Heq]]]; rewrite Heq.
  - exact Hst.
  - apply smoothing_between; assumption.
Qed.

(** ** The remote sample *)

(** C4: a response (op 7) to [GetInputVolume] that defines [inputVolumeMul]
    hands [processVolume] the sample [clamp(inputVolumeMul*100, 0, 100)]; a
    multiplier of 0.5 gives the sample 50 and a multiplier of 1.0 or more
    gives 100. *)
Theorem remote_sample_is_clamped (now : Z) (st : PNGTuber) (mul : Q) :
  exists volume : Q,
    handleOBSMessage now (volumeResponse mul) st = processVolume volume st
    /\ volume == clamp (mul * 100) 0 100
    /\ (mul == 0.5 -> volume == 50)
    /\ (1 <= mul -> volume == 100).
Proof.
  exists (JS.Math_min 100 (JS.Math_max 0 (mul * 100))).
  split; [reflexivity|].
  assert (Hc : JS.Math_min 100 (JS.Math_max 0 (mul * 100)) == clamp (mul * 100) 0 100)
    by (apply Math_clamp; discriminate).
  split; [exact Hc|].
  split; intro H; rewrite Hc; unfold clamp;
    destruct (Qlt_le_dec (mul * 100) 0); try lra;
    destruct (Qlt_le_dec 100 (mul * 100)); lra.
Qed.

Lemma remote_sample_is_clamped_witness :
  (0.5 == 0.5 /\ 1 <= 2.5)
  /\ (exists volume : Q,
        handleOBSMessage 0 (volumeResponse 0.5) (constructor page_threshold30)
        = processVolume volume (constructor page_threshold30)
        /\ volume == 50)
  /\ (exists volume : Q,
        handleOBSMessage 0 (volumeResponse 2.5) (constructor page_threshold30)
        = processVolume volume (constructor page_threshold30)
        /\ volume == 100).
Proof.
  assert (H1 : 0.5 == 0.5) by reflexivity.
  assert (H2 : 1 <= 2.5) by discriminate.
  split; [split; assumption|]. split.
  - destruct (remote_sample_is_clamped 0 (constructor page_threshold30) 0.5)
      as [volume [Hrun [_ [Hhalf _]]]].
    exists volume. split; [exact Hrun|exact (Hhalf H1)].
  - destruct (remote_sample_is_clamped 0 (constructor page_threshold30) 2.5)
      as [volume [Hrun [_ [_ Hcap]]]].
    exists volume. split; [exact Hrun|exact (Hcap H2)].
Defined.

(** ** [obsSend] *)

(** C9: [obsSend] hands the message to the socket only when the socket
    exists and its [readyState] is [OPEN], and then changes nothing but the
    frames sent; in every other case it returns the object unchanged, so the
    methods that compose a message on a socket that is not open (the hello
    reply, [obsAuthenticate], the poll request) send nothing. *)
Theorem obsSend_guarded (data : Outgoing) (st : PNGTuber) :
  (obsWebSocket st = Some OPEN -> obsSend data st = set_wire (wire st ++ [data]) st)
  /\ (obsWebSocket st <> Some OPEN ->
      obsSend data st = st
      /\ obsAuthenticate st = st
      /\ (forall now, handleOBSMessage now hello st = st)
      /\ (forall now, wire (pollAudio now st) = wire st))
  /\ (forall e : Event, obsWebSocket st <> Some OPEN ->
      (forall t : Z, e <> WsOpen t) -> wire (step st e) = wire st).
Proof.
  split; [|split].
  - intro Hopen. unfold obsSend. rewrite Hopen. reflexivity.
  - intro Hnot.
    assert (Hdrop : forall m, obsSend m st = st).
    { intro m. unfold obsSend. destruct (obsWebSocket st) as [[| | |]|];
        try reflexivity. contradiction. }
    repeat split.
    + apply Hdrop.
    + unfold obsAuthenticate. apply Hdrop.
    + intro now. unfold handleOBSMessage. cbn. apply Hdrop.
    + intro now. unfold pollAudio. destruct (negb (obsConnected st)); [reflexivity|].
      rewrite Hdrop. record_cases st. reflexivity.
  - intros e Hnot Hopen. revert Hnot Hopen. frame_step st e; intros Hnot Hopen;
      try reflexivity; try congruence; exfalso; eapply Hopen; reflexivity.
Qed.

Lemma obsSend_guarded_witness :
  let st := constructor page_obs in
  let st' := step st (WsOpen 1700000000000) in
  (obsWebSocket st' = Some OPEN
   /\ obsSend (Identify 1 None) st' = set_wire (wire st' ++ [Identify 1 None]) st')
  /\ (obsWebSocket st <> Some OPEN /\ obsSend (Identify 1 None) st = st).
Proof.
  cbn zeta.
  assert (H1 : obsWebSocket (step (constructor page_obs) (WsOpen 1700000000000)) = Some OPEN)
    by reflexivity.
  assert (H2 : obsWebSocket (constructor page_obs) <> Some OPEN) by discriminate.
  split; split.
  - exact H1.
  - exact (proj1 (obsSend_guarded (Identify 1 None) _) H1).
  - exact H2.
  - exact (proj1 (proj1 (proj2 (obsSend_guarded (Identify 1 None) _)) H2)).
Defined.

(** ** What a callback leaves alone *)

Lemma step_sockets (st : PNGTuber) (e : Event) : sockets (step st e) = sockets st.
Proof. frame_step st e; reflexivity. Qed.

Lemma step_deadline (st : PNGTuber) (e : Event) :
  deadline st = false -> deadline (step st e) = false.
Proof. frame_step st e; cbn; congruence. Qed.

Lemma step_socket_kept (st : PNGTuber) (e : Event) :
  obsWebSocket st <> None -> obsWebSocket (step st e) <> None.
Proof. frame_step st e; cbn; congruence. Qed.

Lemma step_initAudioCalls (st : PNGTuber) (e : Event) :
  e <> WsClose true -> e <> Timeout3000 -> e <> ClickEnableMic ->
  initAudioCalls (step st e) = initAudioCalls st.
Proof. frame_step st e; cbn; congruence. Qed.

Lemma constructor_inv (page : Page) : session_inv (constructor page).
Proof.
  unfold session_inv. constructor_cases page; cbn; split; try lia; congruence.
Qed.

Lemma step_inv (st : PNGTuber) (e : Event) : session_inv st -> session_inv (step st e).
Proof.
  intros [Hs Hd]. split.
  - rewrite step_sockets. exact Hs.
  - intro H. apply step_socket_kept. apply Hd.
    destruct (deadline st) eqn:E; [reflexivity|].
    rewrite (step_deadline st e E) in H. discriminate.
Qed.

Lemma run_inv (events : list Event) (st : PNGTuber) :
  session_inv st -> session_inv (run st events).
Proof.
  revert st. induction events as [|e rest IH]; intros st H; [exact H|].
  cbn. apply IH. apply step_inv. exact H.
Qed.

(** In remote mode the constructor leaves a connecting socket and a pending
    timer, and has not asked for the microphone. *)
Lemma constructor_remote_mode (page : Page) :
  params_get (search page) "obs" = Some "true"%string ->
  webSocketThrows page = false ->
  obsWebSocket (constructor page) = Some CONNECTING
  /\ deadline (constructor page) = true
  /\ sockets (constructor page) = 1%nat
  /\ initAudioCalls (constructor page) = 0%nat.
Proof.
  intros Hobs Hthrows.
  unfold constructor, checkOBSMode, parseURLParams, initOBSWebSocket, fresh.
  rewrite Hobs, Hthrows. cbn [String.eqb Ascii.eqb Bool.eqb].
  destruct (params_get (search page) "threshold");
    destruct (params_get (search page) "source"); repeat split.
Qed.

(** ** Fallback to the microphone *)

(** C2 as stated fails on a session with a password: the socket opens, the
    server says hello, no
    "identified" (op 2) ever arrives and the 3000 ms timer fires.  The page
    holds the connection to be up, so the timer does nothing: [initAudio] is
    not called, the socket stays open, no poll is pending and no
    [processAudio] loop runs. *)
Lemma timeout_without_identified_no_fallback :
  let st := run (constructor page_obs_password)
                [WsOpen 1700000000100; WsMessage 1700000000150 hello; Timeout3000] in
  initAudioCalls st = 0%nat /\ obsWebSocket st = Some OPEN /\ deadline st = false
  /\ remoteActive st = false /\ localActive st = false.
Proof. repeat split. Qed.

Lemma step_at_most_one_fallback (st : PNGTuber) (e : Event) :
  is_click e = false -> at_most_one_fallback st -> at_most_one_fallback (step st e).
Proof.
  unfold at_most_one_fallback, one_trigger_left. intros Hclick H.
  record_cases st. cbn in H.
  destruct H as [[Hia [Hd|[Hw|Hw]]]|[Hia [Hd [Hw|Hw]]]]; subst;
    destruct e; try discriminate Hclick; unfold_methods; project_fields;
    split_matches; project_fields;
    first [ left; split; [reflexivity|]; first [left; reflexivity
                                               | right; left; reflexivity
                                               | right; right; reflexivity]
          | right; split; [reflexivity|]; split; [reflexivity|];
            first [left; reflexivity | right; reflexivity] ].
Qed.

Lemma run_at_most_one_fallback (events : list Event) (st : PNGTuber) :
  forallb (fun e => negb (is_click e)) events = true ->
  at_most_one_fallback st -> at_most_one_fallback (run st events).
Proof.
  revert st. induction events as [|e rest IH]; intros st Hev Hst; [exact Hst|].
  cbn in Hev. apply andb_true_iff in Hev as [He Hrest]. apply negb_true_iff in He.
  unfold run in *. cbn [fold_left]. apply IH; [exact Hrest|].
  apply step_at_most_one_fallback; assumption.
Qed.

(** C2, as the code has it by design: in remote mode the constructor
    creates the socket and arms the 3000 ms timer.  In every state a session
    reaches in which no fallback has run yet: that timer firing while
    [obsConnected] is false (the socket never opened, or it has closed)
    calls [close()] on the socket and triggers the fallback, the first call
    of [initAudio]; and a transport error (the browser fails the connection
    and fires [error], then [close]) triggers the fallback, the first call
    of [initAudio], and leaves the socket closed and [obsConnected] false.
    The timer firing while [obsConnected] is true does nothing, whether or
    not "identified" has arrived.  No other callback than these and the
    click on the microphone button calls [initAudio].  Once one of the two
    triggers is out of the way with no fallback run (the timer is gone, or
    the socket is closed), the rest of a session without clicks has at most
    one fallback.  And there is no reconnect: a session constructs at most
    one WebSocket, no callback constructs another, and the timer is never
    armed again.  What a second trigger does after a fallback has run is
    not part of this statement. *)
Theorem fallback_on_timeout_or_error (page : Page) (events : list Event) :
  let st := run (constructor page) events in
  (params_get (search page) "obs" = Some "true"%string ->
   webSocketThrows page = false ->
   obsWebSocket (constructor page) = Some CONNECTING
   /\ deadline (constructor page) = true
   /\ initAudioCalls (constructor page) = 0%nat)
  /\ (deadline st = true -> obsConnected st = false -> initAudioCalls st = 0%nat ->
      let st' := step st Timeout3000 in
      initAudioCalls st' = 1%nat
      /\ (obsWebSocket st' = Some CLOSING \/ obsWebSocket st' = Some CLOSED)
      /\ deadline st' = false)
  /\ (deadline st = true -> obsConnected st = true ->
      step st Timeout3000 = set_deadline false st)
  /\ (forall rs : ReadyState, obsWebSocket st = Some rs -> rs <> CLOSED ->
      initAudioCalls st = 0%nat ->
      let st' := step st (WsClose true) in
      initAudioCalls st' = 1%nat
      /\ obsWebSocket st' = Some CLOSED /\ obsConnected st' = false)
  /\ (forall e : Event, e <> WsClose true -> e <> Timeout3000 -> e <> ClickEnableMic ->
      initAudioCalls (step st e) = initAudioCalls st)
  /\ (one_trigger_left st ->
      forall more : list Event,
        forallb (fun e => negb (is_click e)) more = true ->
        (initAudioCalls (run st more) <= 1)%nat)
  /\ (sockets st <= 1)%nat
  /\ (forall e : Event, sockets (step st e) = sockets st)
  /\ (forall e : Event, deadline st = false -> deadline (step st e) = false).
Proof.
  cbn zeta.
  split.
  { intros Hobs Hthrows.
    destruct (constructor_remote_mode page Hobs Hthrows) as [H1 [H2 [_ H3]]].
    repeat split; assumption. }
  pose proof (run_inv events _ (constructor_inv page)) as [Hsock Hdl].
  generalize dependent (run (constructor page) events). intros st Hsock Hdl.
  split; [|split; [|split; [|split; [|split; [|split; [|split]]]]]].
  - intros H1 H2 H3. specialize (Hdl H1). record_cases st. cbn in *. subst dl conn ia.
    destruct ws as [[| | |]|]; cbn; auto. contradiction.
  - intros H1 H2. record_cases st. cbn in *. subst dl conn. reflexivity.
  - intros rs H1 H2 H3. record_cases st. cbn in *. subst ws ia.
    destruct rs; cbn; auto. contradiction.
  - intros e. apply step_initAudioCalls.
  - intros Hone more Hmore.
    assert (H : at_most_one_fallback (run st more))
      by (apply run_at_most_one_fallback; [exact Hmore|left; exact Hone]).
    destruct H as [[H _]|[H _]]; rewrite H; lia.
  - exact Hsock.
  - apply step_sockets.
  - intro e. apply step_deadline.
Qed.

Lemma fallback_on_timeout_or_error_witness :
  let st := constructor page_obs in
  (params_get (search page_obs) "obs" = Some "true"%string
   /\ webSocketThrows page_obs = false
   /\ deadline st = true /\ obsConnected st = false /\ initAudioCalls st = 0%nat
   /\ initAudioCalls (step st Timeout3000) = 1%nat)
  /\ (let st1 := run (constructor page_obs) [WsOpen 1700000000100] in
      deadline st1 = true /\ obsConnected st1 = true
      /\ step st1 Timeout3000 = set_deadline false st1
      /\ obsWebSocket st1 = Some OPEN /\ OPEN <> CLOSED /\ initAudioCalls st1 = 0%nat
      /\ initAudioCalls (step st1 (WsClose true)) = 1%nat)
  /\ (let st2 := run (constructor page_obs) [WsOpen 1700000000100; Timeout3000] in
      let more := [WsClose true; MicGranted (repeat Byte.x40 128); PollTimer 1700000003200] in
      one_trigger_left st2
      /\ forallb (fun e => negb (is_click e)) more = true
      /\ (initAudioCalls (run st2 more) <= 1)%nat).
Proof.
  cbn zeta. split; [|split].
  - assert (H1 : deadline (run (constructor page_obs) []) = true) by reflexivity.
    assert (H2 : obsConnected (run (constructor page_obs) []) = false) by reflexivity.
    assert (H3 : params_get (search page_obs) "obs" = Some "true"%string) by reflexivity.
    assert (H4 : webSocketThrows page_obs = false) by reflexivity.
    assert (H5 : initAudioCalls (run (constructor page_obs) []) = 0%nat) by reflexivity.
    split; [exact H3|]. split; [exact H4|].
    split; [exact (proj1 (proj2 (proj1 (fallback_on_timeout_or_error page_obs []) H3 H4)))|].
    split; [exact H2|]. split; [exact H5|].
    exact (proj1 (proj1 (proj2 (fallback_on_timeout_or_error page_obs [])) H1 H2 H5)).
  - pose (evs := [WsOpen 1700000000100]).
    assert (H0 : deadline (run (constructor page_obs) evs) = true) by reflexivity.
    assert (H1 : obsConnected (run (constructor page_obs) evs) = true) by reflexivity.
    assert (H2 : obsWebSocket (run (constructor page_obs) evs) = Some OPEN) by reflexivity.
    assert (H3 : OPEN <> CLOSED) by discriminate.
    assert (H4 : initAudioCalls (run (constructor page_obs) evs) = 0%nat) by reflexivity.
    split; [exact H0|]. split; [exact H1|].
    split; [exact (proj1 (proj2 (proj2 (fallback_on_timeout_or_error page_obs evs))) H0 H1)|].
    split; [exact H2|]. split; [exact H3|]. split; [exact H4|].
    exact (proj1 (proj1 (proj2 (proj2 (proj2
             (fallback_on_timeout_or_error page_obs evs)))) OPEN H2 H3 H4)).
  - pose (evs := [WsOpen 1700000000100; Timeout3000]).
    pose (more := [WsClose true; MicGranted (repeat Byte.x40 128);
                   PollTimer 1700000003200]).
    assert (H1 : one_trigger_left (run (constructor page_obs) evs))
      by (split; [reflexivity|left; reflexivity]).
    assert (H2 : forallb (fun e => negb (is_click e)) more = true) by reflexivity.
    split; [exact H1|]. split; [exact H2|].
    exact (proj1 (proj2 (proj2 (proj2 (proj2 (proj2
             (fallback_on_timeout_or_error page_obs evs)))))) H1 more H2).
Defined.

(** C1: a session loaded with [?obs=true] in which the socket opens and
    polling starts, the connection then fails before the 3000 ms timer
    (the browser fires [error] and [close]), and the timer then fires.  The
    error calls [initAudio] and the timer, finding [obsConnected] false,
    calls it again: the fallback runs twice, and once both microphone
    requests are granted two [processAudio] loops feed [processVolume] side
    by side. *)
Example fallback_runs_twice_after_error :
  let bins := repeat Byte.x40 128 in
  let polling := run (constructor page_obs) [WsOpen 1700000000100] in
  let failed := run polling [WsClose true; MicGranted bins] in
  let expired := run failed [Timeout3000; MicGranted bins] in
  (remoteActive polling = true /\ initAudioCalls polling = 0%nat)
  /\ (initAudioCalls failed = 1%nat /\ audioLoops failed = 1%nat)
  /\ (initAudioCalls expired = 2%nat /\ audioLoops expired = 2%nat).
Proof. vm_compute. repeat split. Qed.

(** *** What the fallback does keep apart

    In a session without a click on the microphone button, the microphone
    is asked for only once the page holds the connection to be down, and a
    connection that is down never comes back: neither the poll loop nor an
    open socket is ever found next to a [processAudio] loop. *)

Lemma constructor_one_source (page : Page) :
  local_untouched (constructor page) \/ remote_given_up (constructor page).
Proof.
  unfold local_untouched, remote_given_up.
  constructor_cases page; cbn;
    try (left; repeat split; reflexivity); right; repeat split; congruence.
Qed.

Lemma step_one_source (st : PNGTuber) (e : Event) :
  is_click e = false ->
  local_untouched st \/ remote_given_up st ->
  local_untouched (step st e) \/ remote_given_up (step st e).
Proof.
  unfold local_untouched, remote_given_up.
  intros Hclick [[H1 [H2 H3]]|[H1 [H2 H3]]].
  - record_cases st. cbn in H1, H2, H3. subst ia mr al.
    destruct e; try discriminate Hclick; unfold_methods; project_fields;
      split_matches; cbn;
      try (left; repeat split; reflexivity);
      right; repeat split; congruence.
  - right. record_cases st. cbn in H1, H2, H3. subst conn.
    destruct e; try discriminate Hclick; unfold_methods; project_fields;
      split_matches; cbn; repeat split; congruence.
Qed.

Lemma sources_exclusive_without_click (page : Page) (events : list Event) :
  forallb (fun e => negb (is_click e)) events = true ->
  let st := run (constructor page) events in
  (remoteActive st || socketOpen st) && localActive st = false.
Proof.
  intro Hnoclick. cbn zeta.
  assert (H : local_untouched (run (constructor page) events)
              \/ remote_given_up (run (constructor page) events)).
  { generalize (constructor_one_source page). generalize (constructor page).
    induction events as [|e rest IH]; intros st Hst; [exact Hst|].
    cbn in Hnoclick. apply andb_true_iff in Hnoclick as [He Hrest].
    cbn. apply IH; [exact Hrest|]. apply step_one_source; [|exact Hst].
    apply negb_true_iff. exact He. }
  unfold remoteActive, socketOpen, localActive.
  destruct H as [[_ [_ H]]|[H1 [H2 H3]]].
  - rewrite H. apply andb_false_r.
  - rewrite H1. destruct (obsWebSocket (run (constructor page) events)) as [[| | |]|];
      try reflexivity. contradiction.
Qed.

(** ** The handshake *)

(** C3: on an open socket the reply to a hello (op 0) is an identify (op 1)
    with [rpcVersion] 1 and no [authentication] property, whatever
    [obsPassword] is; the only identify that carries the password is the one
    [onopen] sends through [obsAuthenticate], before any hello. *)
Theorem hello_reply_has_no_authentication (now : Z) (message : Message) (st : PNGTuber) :
  op message = 0%Z -> obsWebSocket st = Some OPEN ->
  handleOBSMessage now message st = set_wire (wire st ++ [Identify 1 None]) st
  /\ obsAuthenticate st = set_wire (wire st ++ [Identify 1 (Some (obsPassword st))]) st.
Proof.
  intros Hop Hopen. unfold handleOBSMessage, obsAuthenticate, obsSend.
  rewrite Hop, Hopen. split; reflexivity.
Qed.

Lemma hello_reply_has_no_authentication_witness :
  let st := run (constructor page_obs_password) [WsOpen 1700000000100] in
  obsPassword st = "s3cret"%string
  /\ op hello = 0%Z /\ obsWebSocket st = Some OPEN
  /\ wire (handleOBSMessage 1700000000150 hello st)
     = [Identify 1 (Some "s3cret"%string); Identify 1 None].
Proof.
  cbn zeta.
  assert (H1 : op hello = 0%Z) by reflexivity.
  assert (H2 : obsWebSocket (run (constructor page_obs_password) [WsOpen 1700000000100])
               = Some OPEN) by reflexivity.
  split; [reflexivity|]. split; [exact H1|]. split; [exact H2|].
  rewrite (proj1 (hello_reply_has_no_authentication 1700000000150 hello _ H1 H2)).
  reflexivity.
Defined.

(** ** Defaults *)

(** C8: when the query string has no [threshold] parameter the constructor
    leaves [threshold] at 20, in [js/app.js] and in the microphone-only
    variant alike; it is not 30. *)
Theorem default_threshold_is_20 (page : Page) :
  params_get (search page) "threshold" = None ->
  threshold (constructor page) = Some 20%Z
  /\ MicOnly.threshold (MicOnly.constructor page) = Some 20%Z
  /\ threshold (constructor page) <> Some 30%Z.
Proof.
  intro Hnone.
  assert (H : threshold (constructor page) = Some 20%Z).
  { unfold constructor, checkOBSMode, parseURLParams, initOBSWebSocket, initAudio, fresh.
    rewrite Hnone.
    destruct (params_get (search page) "source");
      destruct (params_get (search page) "obs") as [v|];
      try destruct (String.eqb v "true");
      try destruct (webSocketThrows page);
      reflexivity. }
  split; [exact H|]. split.
  - unfold MicOnly.constructor. rewrite Hnone.
    destruct (params_get (search page) "obs") as [v|];
      try destruct (String.eqb v "true"); reflexivity.
  - rewrite H. discriminate.
Qed.

Lemma default_threshold_is_20_witness :
  params_get (search page_obs) "threshold" = None
  /\ threshold (constructor page_obs) = Some 20%Z.
Proof.
  assert (H : params_get (search page_obs) "threshold" = None) by reflexivity.
  split; [exact H|]. exact (proj1 (default_threshold_is_20 page_obs H)).
Defined.

(** ** The embedding on known inputs *)

Example parseInt_examples :
  JS.parseInt " 40px" = Some 40%Z
  /\ JS.parseInt "-7" = Some (-7)%Z
  /\ JS.parseInt "0030" = Some 30%Z
  /\ JS.parseInt "abc" = None
  /\ JS.parseInt "" = None.
Proof. repeat split. Qed.

(** The end-to-end scenario of the specification: with [threshold = 30] and
    a fresh state, the multipliers 0.1, 0.1, 0.9, 0.9, 0.1 received over an
    open socket open the mouth at the third sample; one more 0.1 closes it
    again. *)
Example end_to_end_scenario :
  let page := {| search := [("obs", "true"); ("threshold", "30")]%string;
                 volumeBarElement := true; webSocketThrows := false |} in
  let responses := map (fun mul => WsMessage 1700000000200 (volumeResponse mul)) in
  let session n :=
    run (constructor page)
        (WsOpen 1700000000100 :: responses (firstn n [0.1; 0.1; 0.9; 0.9; 0.1; 0.1])) in
  map (fun n => mouth (session n)) [2; 3; 5; 6]%nat
  = [[]; [true]; [true]; [true; false]].
Proof. vm_compute. reflexivity. Qed.

(** * Further properties of the code *)

(** ** The colour helpers *)

Lemma below_16 (P : Z -> Prop) :
  P 0%Z -> P 1%Z -> P 2%Z -> P 3%Z -> P 4%Z -> P 5%Z -> P 6%Z -> P 7%Z ->
  P 8%Z -> P 9%Z -> P 10%Z -> P 11%Z -> P 12%Z -> P 13%Z -> P 14%Z -> P 15%Z ->
  forall k : Z, (0 <= k < 16)%Z -> P k.
Proof.
  intros.
  assert (Hk : (k = 0 \/ k = 1 \/ k = 2 \/ k = 3 \/ k = 4 \/ k = 5 \/ k = 6 \/ k = 7
               \/ k = 8 \/ k = 9 \/ k = 10 \/ k = 11 \/ k = 12 \/ k = 13 \/ k = 14
               \/ k = 15)%Z) by lia.
  repeat (destruct Hk as [->|Hk]; [assumption|]). subst k. assumption.
Qed.

Lemma string_of_hex_cons (k : Z) (d : Hexadecimal.uint) :
  (0 <= k < 16)%Z ->
  HexadecimalString.NilEmpty.string_of_uint (hex_cons k d)
  = String (hex_char k) (HexadecimalString.NilEmpty.string_of_uint d).
Proof. revert k. apply below_16; reflexivity. Qed.

Lemma of_hex_uint_acc_cons (k : Z) (d : Hexadecimal.uint) (acc : positive) :
  (0 <= k < 16)%Z ->
  Pos.of_hex_uint_acc (hex_cons k d) acc
  = Pos.of_hex_uint_acc d (Z.to_pos (16 * Z.pos acc + k)).
Proof.
  revert k. apply below_16; cbn [hex_cons Pos.of_hex_uint_acc]; f_equal; lia.
Qed.

Lemma hex_digit_of_hex_char (k : Z) :
  (0 <= k < 16)%Z -> JSColor.hex_digit_of (hex_char k) = Some k.
Proof. revert k. apply below_16; reflexivity. Qed.

Ltac digit_bound :=
  first [ apply Z.mod_pos_bound; lia
        | split; [apply Z.div_pos; lia | apply Z.div_lt_upper_bound; lia] ].

(** [toString(16)] of the number that the helpers build, for channels in
    range: a [1] and the six digits of the colour. *)
Lemma toString16_color (r g b : Z) :
  (0 <= r <= 255)%Z -> (0 <= g <= 255)%Z -> (0 <= b <= 255)%Z ->
  JSColor.toString16 (16777216 + r * 65536 + g * 256 + b)
  = String "1" (hex6 r g b).
Proof.
  intros Hr Hg Hb.
  set (d := hex_cons (r / 16) (hex_cons (r mod 16) (hex_cons (g / 16)
              (hex_cons (g mod 16) (hex_cons (b / 16) (hex_cons (b mod 16)
                 Hexadecimal.Nil)))))).
  assert (Hval : Z.of_hex_int (Hexadecimal.Pos (Hexadecimal.D1 d))
                 = (16777216 + r * 65536 + g * 256 + b)%Z).
  { unfold Z.of_hex_int, Z.of_hex_uint. cbn [Pos.of_hex_uint Z.of_N]. unfold d.
    rewrite !of_hex_uint_acc_cons by digit_bound.
    cbn [Pos.of_hex_uint_acc].
    pose proof (Z.div_mod r 16 ltac:(lia)). pose proof (Z.mod_pos_bound r 16 ltac:(lia)).
    pose proof (Z.div_mod g 16 ltac:(lia)). pose proof (Z.mod_pos_bound g 16 ltac:(lia)).
    pose proof (Z.div_mod b 16 ltac:(lia)). pose proof (Z.mod_pos_bound b 16 ltac:(lia)).
    assert (0 <= r / 16 < 16)%Z by lia. assert (0 <= g / 16 < 16)%Z by lia.
    assert (0 <= b / 16 < 16)%Z by lia.
    lia. }
  unfold JSColor.toString16. rewrite <- Hval, HexadecimalZ.to_of.
  cbn [Hexadecimal.norm Hexadecimal.unorm Hexadecimal.nzhead
       HexadecimalString.NilZero.string_of_int HexadecimalString.NilZero.string_of_uint
       HexadecimalString.NilEmpty.string_of_uint].
  unfold d, hex6, hex2.
  rewrite !string_of_hex_cons by digit_bound.
  reflexivity.
Qed.

Lemma ToInt32_small (num : Z) :
  (0 <= num < 16777216)%Z -> JSColor.ToInt32 (Some num) = num.
Proof.
  intro H. unfold JSColor.ToInt32.
  rewrite Z.mod_small by lia. lia.
Qed.

(** The three channels that the helpers cut out of a 24-bit number. *)
Lemma channels_of_number (num : Z) :
  (0 <= num < 16777216)%Z ->
  Z.shiftr num 16 = (num / 65536)%Z
  /\ Z.land (Z.shiftr num 8) 255 = (num / 256 mod 256)%Z
  /\ Z.land num 255 = (num mod 256)%Z.
Proof.
  intro H. rewrite !Z.shiftr_div_pow2 by lia.
  change 255%Z with (Z.ones 8). rewrite !Z.land_ones by lia.
  repeat split.
Qed.

Lemma channel_bounds (num : Z) :
  (0 <= num < 16777216)%Z ->
  (0 <= num / 65536 <= 255)%Z /\ (0 <= num / 256 mod 256 <= 255)%Z
  /\ (0 <= num mod 256 <= 255)%Z.
Proof.
  intro H.
  pose proof (Z.mod_pos_bound (num / 256) 256 ltac:(lia)).
  pose proof (Z.mod_pos_bound num 256 ltac:(lia)).
  assert (0 <= num / 65536)%Z by (apply Z.div_pos; lia).
  assert (num / 65536 < 256)%Z by (apply Z.div_lt_upper_bound; lia).
  lia.
Qed.

Lemma Math_round_nonneg (x : Q) : 0 <= x -> (0 <= JS.Math_round x)%Z.
Proof.
  intro H. unfold JS.Math_round. change 0%Z with (Qfloor 0).
  apply Qfloor_resp_le. lra.
Qed.

Lemma lightenColor_number (hex : string) (percent : Q) (num : Z) :
  JSColor.parseInt16 (JSColor.replace_hash hex) = Some num ->
  (0 <= num < 16777216)%Z ->
  0 <= percent ->
  let amt := JS.Math_round (2.55 * percent) in
  lightenColor hex percent
  = String "#" (hex6 (Z.min 255 (num / 65536 + amt))
                     (Z.min 255 (num / 256 mod 256 + amt))
                     (Z.min 255 (num mod 256 + amt))).
Proof.
  intros Hparse Hnum Hp amt. unfold lightenColor. rewrite Hparse.
  rewrite ToInt32_small by exact Hnum.
  destruct (channels_of_number num Hnum) as [-> [-> ->]].
  destruct (channel_bounds num Hnum) as [Hr [Hg Hb]].
  assert (Hamt : (0 <= amt)%Z) by (apply Math_round_nonneg; lra).
  fold amt. rewrite toString16_color by lia. reflexivity.
Qed.

Lemma darkenColor_number (hex : string) (percent : Q) (num : Z) :
  JSColor.parseInt16 (JSColor.replace_hash hex) = Some num ->
  (0 <= num < 16777216)%Z ->
  0 <= percent ->
  let amt := JS.Math_round (2.55 * percent) in
  darkenColor hex percent
  = String "#" (hex6 (Z.max 0 (num / 65536 - amt))
                     (Z.max 0 (num / 256 mod 256 - amt))
                     (Z.max 0 (num mod 256 - amt))).
Proof.
  intros Hparse Hnum Hp amt. unfold darkenColor. rewrite Hparse.
  rewrite ToInt32_small by exact Hnum.
  destruct (channels_of_number num Hnum) as [-> [-> ->]].
  destruct (channel_bounds num Hnum) as [Hr [Hg Hb]].
  assert (Hamt : (0 <= amt)%Z) by (apply Math_round_nonneg; lra).
  fold amt. rewrite toString16_color by lia. reflexivity.
Qed.

Lemma unparsable_color_number (hex : string) (percent : Q) :
  JSColor.parseInt16 (JSColor.replace_hash hex) = None ->
  0 <= percent ->
  let amt := Z.min 255 (JS.Math_round (2.55 * percent)) in
  lightenColor hex percent = String "#" (hex6 amt amt amt)
  /\ darkenColor hex percent = "#000000"%string.
Proof.
  intros Hparse Hp amt.
  assert (Hamt : (0 <= JS.Math_round (2.55 * percent))%Z)
    by (apply Math_round_nonneg; lra).
  unfold lightenColor, darkenColor. rewrite Hparse.
  cbn [JSColor.ToInt32].
  change (Z.shiftr 0 16) with 0%Z. change (Z.shiftr 0 8) with 0%Z.
  change (Z.land 0 255) with 0%Z. rewrite !Z.add_0_l, !Z.sub_0_l.
  fold amt. split.
  - rewrite toString16_color by lia. reflexivity.
  - rewrite !Z.max_l by lia. reflexivity.
Qed.

(** Reading back the six digits of a colour. *)
Lemma parseInt16_hex6 (r g b : Z) :
  (0 <= r <= 255)%Z -> (0 <= g <= 255)%Z -> (0 <= b <= 255)%Z ->
  JSColor.parseInt16 (hex6 r g b) = Some (r * 65536 + g * 256 + b)%Z.
Proof.
  intros Hr Hg Hb. unfold hex6.
  assert (Hplain : forall a c rest, (0 <= a < 16)%Z -> (0 <= c < 16)%Z ->
            JSColor.parseInt16 (String (hex_char a) (String (hex_char c) rest))
            = JSColor.hex_digits (String (hex_char a) (String (hex_char c) rest)) false 0).
  { intros a c rest Ha Hc. revert a Ha. apply below_16; revert c Hc;
      apply below_16; reflexivity. }
  unfold hex2 at 1. rewrite Hplain by digit_bound. unfold hex2.
  repeat (cbn [JSColor.hex_digits]; rewrite hex_digit_of_hex_char by digit_bound).
  cbn [JSColor.hex_digits]. f_equal.
  pose proof (Z.div_mod r 16 ltac:(lia)). pose proof (Z.div_mod g 16 ltac:(lia)).
  pose proof (Z.div_mod b 16 ltac:(lia)). lia.
Qed.

Lemma hex6_channels (r g b : Z) :
  (0 <= r <= 255)%Z -> (0 <= g <= 255)%Z -> (0 <= b <= 255)%Z ->
  let num := (r * 65536 + g * 256 + b)%Z in
  (0 <= num < 16777216)%Z
  /\ (num / 65536 = r)%Z /\ (num / 256 mod 256 = g)%Z /\ (num mod 256 = b)%Z.
Proof.
  intros Hr Hg Hb num. unfold num. split; [lia|]. repeat split.
  - symmetry. apply (Z.div_unique _ _ _ (g * 256 + b)); lia.
  - replace ((r * 65536 + g * 256 + b) / 256)%Z with (r * 256 + g)%Z
      by (apply (Z.div_unique _ _ _ b); lia).
    symmetry. apply (Z.mod_unique _ _ r); lia.
  - symmetry. apply (Z.mod_unique _ _ (r * 256 + g)); lia.
Qed.

(** X3: for a colour [#rrggbb] whose channels all have room for the amount
    (none exceeds 255 minus [Math.round(2.55 * percent)]), [lightenColor]
    adds the amount to each channel and [darkenColor] with the same
    percentage gives the colour back. *)
Theorem darken_undoes_lighten (r g b : Z) (percent : Q) :
  0 <= percent ->
  let amt := JS.Math_round (2.55 * percent) in
  (0 <= r <= 255 - amt)%Z -> (0 <= g <= 255 - amt)%Z -> (0 <= b <= 255 - amt)%Z ->
  lightenColor (String "#" (hex6 r g b)) percent
  = String "#" (hex6 (r + amt) (g + amt) (b + amt))
  /\ darkenColor (lightenColor (String "#" (hex6 r g b)) percent) percent
     = String "#" (hex6 r g b).
Proof.
  intros Hp amt Hr Hg Hb.
  assert (Hamt : (0 <= amt)%Z) by (apply Math_round_nonneg; lra).
  assert (Hl : lightenColor (String "#" (hex6 r g b)) percent
               = String "#" (hex6 (r + amt) (g + amt) (b + amt))).
  { destruct (hex6_channels r g b) as [Hn [H1 [H2 H3]]]; try lia.
    rewrite (lightenColor_number _ percent (r * 65536 + g * 256 + b)); try assumption.
    - fold amt. rewrite H1, H2, H3. rewrite !Z.min_r by lia. reflexivity.
    - cbn [JSColor.replace_hash Ascii.eqb Bool.eqb]. apply parseInt16_hex6; lia. }
  split; [exact Hl|]. rewrite Hl.
  destruct (hex6_channels (r + amt) (g + amt) (b + amt)) as [Hn [H1 [H2 H3]]]; try lia.
  rewrite (darkenColor_number _ percent
             ((r + amt) * 65536 + (g + amt) * 256 + (b + amt))); try assumption.
  - fold amt. rewrite H1, H2, H3. rewrite !Z.max_r by lia.
    replace (r + amt - amt)%Z with r by lia. replace (g + amt - amt)%Z with g by lia.
    replace (b + amt - amt)%Z with b by lia. reflexivity.
  - cbn [JSColor.replace_hash Ascii.eqb Bool.eqb]. apply parseInt16_hex6; lia.
Qed.

(** ** The talk state machine over a session *)

Lemma talk_processVolume (v : Q) (st : PNGTuber) :
  talk (processVolume v st) = next_talk v (talk st).
Proof.
  unfold talk, next_talk.
  rewrite processVolume_threshold, processVolume_isTalking,
    processVolume_smoothedVolume, processVolume_mouth.
  reflexivity.
Qed.

Ltac unfold_callbacks :=
  unfold step, onopen, onmessage, onerror, onclose, onTimeout, handleOBSMessage,
    handleOBSVolumeResponse, startOBSAudioLoop, pollAudio, obsAuthenticate, obsSend,
    initAudio_granted, initAudio_denied, startAudioLoop, processAudio, initAudio.

(** A callback either leaves the talk state machine alone (the slider
    changes the threshold and nothing else) or hands it one sample that
    lies in [0,100]. *)
Lemma step_talk (st : PNGTuber) (e : Event) :
  (isTalking (step st e) = isTalking st
   /\ smoothedVolume (step st e) = smoothedVolume st
   /\ mouth (step st e) = mouth st
   /\ (is_threshold_input e = false -> threshold (step st e) = threshold st))
  \/ (is_threshold_input e = false
      /\ exists v : Q, 0 <= v <= 100 /\ talk (step st e) = next_talk v (talk st)).
Proof.
  record_cases st; destruct e; unfold_callbacks; project_fields; split_matches;
    first [ left; repeat split; intros; first [reflexivity | discriminate]
          | right; split; [reflexivity|]; eexists; split;
            [|rewrite talk_processVolume; reflexivity];
            first [apply Math_clamp_range | apply binsVolume_range] ].
Qed.

Lemma last_default (x : bool) (l : list bool) (d d' : bool) :
  last (x :: l) d = last (x :: l) d'.
Proof.
  revert x. induction l as [|y rest IH]; intro x; [reflexivity|].
  change (last (y :: rest) d = last (y :: rest) d'). apply IH.
Qed.

Lemma alternates_snoc (expected : bool) (log : list bool) (x : bool) :
  alternates expected log = true ->
  x = negb (last log (negb expected)) ->
  alternates expected (log ++ [x]) = true.
Proof.
  revert expected. induction log as [|y rest IH]; intros expected Halt Hx.
  - cbn in *. subst x. rewrite negb_involutive, Bool.eqb_reflx. reflexivity.
  - cbn [alternates app] in *. apply andb_true_iff in Halt as [Hy Hrest].
    apply Bool.eqb_prop in Hy. subst y. rewrite Bool.eqb_reflx. cbn [andb].
    apply IH; [exact Hrest|].
    destruct rest as [|z rest'].
    + cbn in *. rewrite negb_involutive. exact Hx.
    + rewrite Hx. f_equal.
      change (last (z :: rest') (negb expected) = last (z :: rest') (negb (negb expected))).
      apply last_default.
Qed.

Lemma next_talk_mouth_inv (v : Q) (st st' : PNGTuber) :
  talk st' = next_talk v (talk st) -> mouth_inv st -> mouth_inv st'.
Proof.
  unfold talk, next_talk, mouth_inv. intros Heq [Halt Hlast].
  injection Heq as _ Htalk _ Hmouth. rewrite Hmouth, Htalk.
  destruct (Bool.eqb _ (isTalking st)) eqn:E.
  - apply Bool.eqb_prop in E. rewrite E. split; assumption.
  - split.
    + apply alternates_snoc; [exact Halt|]. cbn [negb]. rewrite <- Hlast.
      destruct (JS.gt _ _), (isTalking st); try reflexivity; discriminate.
    + rewrite last_last. reflexivity.
Qed.

Lemma constructor_talk (page : Page) :
  isTalking (constructor page) = false /\ mouth (constructor page) = [].
Proof. constructor_cases page; split; reflexivity. Qed.

(** X7: in every session the calls of [updateMouthState] alternate between
    opening and closing the mouth, the first one opens it, and [isTalking]
    is what the last call showed (not talking before the first call);
    moving the threshold slider calls [updateMouthState] not at all and
    leaves [isTalking] as it is. *)
Theorem mouth_events_alternate (page : Page) (events : list Event) :
  let st := run (constructor page) events in
  alternates true (mouth st) = true /\ isTalking st = last (mouth st) false
  /\ (forall value : string,
        mouth (step st (ThresholdInput value)) = mouth st
        /\ isTalking (step st (ThresholdInput value)) = isTalking st).
Proof.
  cbn zeta.
  assert (H : mouth_inv (run (constructor page) events)).
  { assert (H0 : mouth_inv (constructor page)).
    { destruct (constructor_talk page) as [H1 H2]. unfold mouth_inv.
      rewrite H1, H2. split; reflexivity. }
    revert H0. generalize (constructor page).
    induction events as [|e rest IH]; intros st Hst; [exact Hst|].
    cbn. apply IH.
    destruct (step_talk st e) as [[H1 [_ [H3 _]]]|[_ [v [_ Hv]]]].
    - destruct Hst as [Ha Hl]. unfold mouth_inv. rewrite H1, H3. split; assumption.
    - exact (next_talk_mouth_inv v st _ Hv Hst). }
  destruct H as [H1 H2]. split; [exact H1|]. split; [exact H2|].
  intro value. destruct (run (constructor page) events). split; reflexivity.
Qed.

Lemma constructor_threshold (page : Page) :
  threshold (constructor page)
  = match params_get (search page) "threshold" with
    | Some v => JS.parseInt v
    | None => Some 20%Z
    end.
Proof. constructor_cases page; reflexivity. Qed.

(** A property of the talk state machine that the constructor establishes
    and every sample in [0,100] keeps holds throughout a session in which
    the slider is not moved. *)
Lemma session_talk_inv (I : option Z * bool * Q * list bool -> Prop)
    (page : Page) (events : list Event) :
  I (talk (constructor page)) ->
  (forall v t, 0 <= v <= 100 -> I t -> I (next_talk v t)) ->
  forallb (fun e => negb (is_threshold_input e)) events = true ->
  I (talk (run (constructor page) events)).
Proof.
  intros H0 Hnext. revert H0. generalize (constructor page).
  induction events as [|e rest IH]; intros st Hst Hev; [exact Hst|].
  cbn in Hev. apply andb_true_iff in Hev as [He Hrest]. apply negb_true_iff in He.
  cbn. apply IH; [|exact Hrest].
  destruct (step_talk st e) as [[H1 [H2 [H3 H4]]]|[_ [v [Hv Heq]]]].
  - unfold talk in *. rewrite H1, H2, H3, (H4 He). exact Hst.
  - rewrite Heq. apply Hnext; assumption.
Qed.

Lemma gt_NaN (a : Q) : JS.gt a None = false.
Proof. reflexivity. Qed.

Lemma gt_true (a : Q) (t : Z) : inject_Z t < a -> JS.gt a (Some t) = true.
Proof.
  intro H. unfold JS.gt. apply negb_true_iff. apply not_true_is_false.
  intro Hle. apply Qle_bool_iff in Hle. lra.
Qed.

Lemma gt_false (a : Q) (t : Z) : a <= inject_Z t -> JS.gt a (Some t) = false.
Proof.
  intro H. unfold JS.gt. apply negb_false_iff. apply Qle_bool_iff. exact H.
Qed.

(** X8: when the [threshold] parameter holds no number, [parseInt] gives
    [NaN]; as long as the slider is not moved the threshold stays [NaN], the
    avatar never talks and [updateMouthState] is never called, whatever the
    two sources deliver. *)
Theorem unparsable_threshold_never_talks (page : Page) (events : list Event) (s : string) :
  params_get (search page) "threshold" = Some s ->
  JS.parseInt s = None ->
  forallb (fun e => negb (is_threshold_input e)) events = true ->
  let st := run (constructor page) events in
  threshold st = None /\ isTalking st = false /\ mouth st = [].
Proof.
  intros Hs Hnan Hev. cbn zeta.
  pose (I := fun t : option Z * bool * Q * list bool =>
               let '(thr, tk, _, log) := t in thr = None /\ tk = false /\ log = []).
  assert (H : I (talk (run (constructor page) events))).
  { apply session_talk_inv; [| |exact Hev].
    - unfold I, talk. rewrite constructor_threshold, Hs, Hnan.
      destruct (constructor_talk page) as [-> ->]. repeat split.
    - intros v [[[thr tk] sm] log] _ [-> [-> ->]]. cbn. repeat split. }
  exact H.
Qed.

(** X9: with a threshold of 100 or more, and the slider not moved, the
    avatar never talks in any session: the smoothed volume cannot exceed
    100. *)
Theorem threshold_of_100_never_talks (page : Page) (events : list Event) (t : Z) :
  threshold (constructor page) = Some t ->
  (100 <= t)%Z ->
  forallb (fun e => negb (is_threshold_input e)) events = true ->
  let st := run (constructor page) events in
  isTalking st = false /\ mouth st = [].
Proof.
  intros Ht Hbig Hev. cbn zeta.
  pose (I := fun x : option Z * bool * Q * list bool =>
               let '(thr, tk, sm, log) := x in
               thr = Some t /\ tk = false /\ log = [] /\ 0 <= sm <= 100).
  assert (H : I (talk (run (constructor page) events))).
  { apply session_talk_inv; [| |exact Hev].
    - unfold I, talk. rewrite Ht, constructor_smoothedVolume.
      destruct (constructor_talk page) as [-> ->].
      repeat split; discriminate.
    - intros v [[[thr tk] sm] log] Hv [-> [-> [-> Hsm]]]. cbn [next_talk].
      assert (Hs' : 0 <= sm * 0.7 + v * 0.3 <= 100)
        by (apply smoothing_between; assumption).
      assert (Hq : inject_Z 100 <= inject_Z t) by (rewrite <- Zle_Qle; exact Hbig).
      change (inject_Z 100) with 100 in Hq.
      rewrite gt_false by lra. cbn. repeat split; apply Hs'. }
  destruct H as [_ [H1 [H2 _]]]. split; assumption.
Qed.

(** X10: with a negative threshold and a smoothed volume that is not
    negative, every sample that is a number not below 0 makes the avatar
    talk: over a run of such samples the first one opens the mouth if it
    was closed, and no other mouth event follows. *)
Theorem negative_threshold_sticks_open (st : PNGTuber) (t : Z) (samples : list Q) :
  threshold st = Some t ->
  (t < 0)%Z ->
  0 <= smoothedVolume st ->
  Forall (fun v => 0 <= v) samples ->
  samples <> [] ->
  isTalking (feed samples st) = true
  /\ mouth (feed samples st) = (if isTalking st then mouth st else mouth st ++ [true]).
Proof.
  intros Ht Hneg Hs Hall Hne.
  assert (Hq : inject_Z t < 0).
  { change 0 with (inject_Z 0). rewrite <- Zlt_Qlt. exact Hneg. }
  assert (Hstep : forall s v, threshold s = Some t -> 0 <= smoothedVolume s -> 0 <= v ->
            threshold (processVolume v s) = Some t
            /\ 0 <= smoothedVolume (processVolume v s)
            /\ isTalking (processVolume v s) = true
            /\ mouth (processVolume v s)
               = (if isTalking s then mouth s else mouth s ++ [true])).
  { intros s v Hts Hss Hv.
    rewrite processVolume_threshold, processVolume_smoothedVolume,
      processVolume_isTalking, processVolume_mouth, Hts. cbn zeta.
    assert (Hs' : 0 <= smoothedVolume s * 0.7 + v * 0.3) by lra.
    rewrite gt_true by lra.
    repeat split; try assumption. destruct (isTalking s); reflexivity. }
  assert (Hkeep : forall l s, Forall (fun v => 0 <= v) l ->
            threshold s = Some t -> 0 <= smoothedVolume s -> isTalking s = true ->
            isTalking (feed l s) = true /\ mouth (feed l s) = mouth s).
  { intros l. induction l as [|v l IH]; intros s Hl Hts Hss Htk; [split; [exact Htk|reflexivity]|].
    inversion Hl as [|v' l' Hv Hl']; subst.
    destruct (Hstep s v Hts Hss Hv) as [G1 [G2 [G3 G4]]].
    change (feed (v :: l) s) with (feed l (processVolume v s)).
    destruct (IH (processVolume v s) Hl' G1 G2 G3) as [K1 K2].
    rewrite K1, K2, G4, Htk. split; reflexivity. }
  destruct samples as [|v rest]; [contradiction|].
  inversion Hall as [|v' l' Hv Hrest]; subst.
  destruct (Hstep st v Ht Hs Hv) as [G1 [G2 [G3 G4]]].
  change (feed (v :: rest) st) with (feed rest (processVolume v st)).
  destruct (Hkeep rest (processVolume v st) Hrest G1 G2 G3) as [K1 K2].
  rewrite K1, K2, G4. split; reflexivity.
Qed.

(** ** The remote client over a session *)

Lemma step_config (st : PNGTuber) (e : Event) :
  obsPort (step st e) = obsPort st
  /\ obsPassword (step st e) = obsPassword st
  /\ obsAudioSource (step st e) = obsAudioSource st.
Proof. frame_step st e; repeat split. Qed.

Lemma run_config (events : list Event) (st : PNGTuber) :
  obsPort (run st events) = obsPort st
  /\ obsPassword (run st events) = obsPassword st
  /\ obsAudioSource (run st events) = obsAudioSource st.
Proof.
  revert st. induction events as [|e rest IH]; intro st; [repeat split|].
  unfold run in *. cbn [fold_left]. destruct (IH (step st e)) as [H1 [H2 H3]].
  destruct (step_config st e) as [G1 [G2 G3]].
  rewrite H1, H2, H3, G1, G2, G3. repeat split.
Qed.

(** A callback sends at most one frame, an allowed one, and the only frame
    that carries the password is the one sent when the socket opens. *)
Lemma step_wire (st : PNGTuber) (e : Event) :
  (wire (step st e) = wire st /\ (not_yet_open (step st e) -> not_yet_open st))
  \/ (exists f : Outgoing,
        wire (step st e) = wire st ++ [f]
        /\ frame_allowed (obsPassword st) (obsAudioSource st) f
        /\ (carries_password f = true -> not_yet_open st)
        /\ ~ not_yet_open (step st e)).
Proof.
  unfold not_yet_open.
  record_cases st; destruct pw as [|c pw']; destruct e; unfold_callbacks;
    unfold processVolume, updateMouthState; project_fields;
    cbn [JS.truthy]; split_matches; project_fields;
    first [ left; split; [reflexivity|]; intros [H|H];
            first [ discriminate H | left; assumption | right; assumption
                  | left; reflexivity | right; reflexivity ]
          | right; eexists; split; [reflexivity|]; cbn;
            repeat split; try reflexivity; try discriminate;
            try (eexists; reflexivity);
            try (right; split; [reflexivity|discriminate]);
            try (left; reflexivity);
            try (intros _; right; reflexivity);
            try (intros [H|H]; discriminate H) ].
Qed.

Lemma step_wire_inv (pw src : string) (st : PNGTuber) (e : Event) :
  wire_inv pw src st -> wire_inv pw src (step st e).
Proof.
  intros [Hpw [Hsrc [Hall [Htl Hnil]]]].
  destruct (step_config st e) as [_ [Gpw Gsrc]].
  unfold wire_inv. rewrite Gpw, Gsrc. split; [exact Hpw|]. split; [exact Hsrc|].
  destruct (step_wire st e) as [[Hw Hopen]|[f [Hw [Hf [Hcarry Hopen]]]]]; rewrite Hw.
  - split; [exact Hall|]. split; [exact Htl|]. intro H. apply Hnil, Hopen, H.
  - rewrite Hpw, Hsrc in Hf.
    split; [apply Forall_app; split; [exact Hall|constructor; [exact Hf|constructor]]|].
    split; [|intro H; contradiction].
    destruct (wire st) as [|f0 rest] eqn:Ew; [reflexivity|].
    cbn [app tl] in *. rewrite forallb_app, Htl. cbn.
    destruct (carries_password f) eqn:Ec; [|reflexivity].
    specialize (Hnil (Hcarry eq_refl)). discriminate Hnil.
Qed.

Lemma constructor_wire (page : Page) : wire (constructor page) = [].
Proof. constructor_cases page; reflexivity. Qed.

(** X11: every frame a session sends is an identify with [rpcVersion] 1,
    without authentication or with the configured non-empty password, or a
    [GetInputVolume] request whose id is [vol_] and a time stamp and whose
    input is the configured source; and the password is carried by the
    first frame of the session or by none. *)
Theorem frames_sent_in_a_session (page : Page) (events : list Event) :
  let st := run (constructor page) events in
  let pw := JS.or_default (params_get (search page) "password") "" in
  let src := match params_get (search page) "source" with
             | Some v => v
             | None => "Mic/Aux"%string
             end in
  Forall (frame_allowed pw src) (wire st)
  /\ forallb (fun f => negb (carries_password f)) (tl (wire st)) = true.
Proof.
  cbn zeta.
  set (pw := JS.or_default (params_get (search page) "password") "").
  set (src := match params_get (search page) "source" with
              | Some v => v | None => "Mic/Aux"%string end).
  assert (H0 : wire_inv pw src (constructor page)).
  { unfold wire_inv. rewrite constructor_wire.
    split; [unfold pw; constructor_cases page; reflexivity|].
    split; [unfold src; constructor_cases page; reflexivity|].
    split; [constructor|]. split; reflexivity. }
  assert (H : wire_inv pw src (run (constructor page) events)).
  { revert H0. generalize (constructor page).
    induction events as [|e rest IH]; intros st Hst; [exact Hst|].
    unfold run in *. cbn [fold_left]. apply IH. apply step_wire_inv. exact Hst. }
  destruct H as [_ [_ [H1 [H2 _]]]]. split; assumption.
Qed.

(** X12: a frame that is neither a hello (op 0), nor an "identified"
    (op 2), nor a [GetInputVolume] response that defines [inputVolumeMul]
    leaves the object unchanged. *)
Theorem other_frames_are_ignored (now : Z) (message : Message) (st : PNGTuber) :
  op message <> 0%Z -> op message <> 2%Z ->
  (forall mul : Q, message <> volumeResponse mul) ->
  handleOBSMessage now message st = st.
Proof.
  intros H0 H2 Hvol. unfold handleOBSMessage.
  destruct (Z.eqb_spec (op message) 0); [contradiction|].
  destruct (Z.eqb_spec (op message) 2); [contradiction|].
  destruct (Z.eqb_spec (op message) 7) as [H7|]; [|reflexivity].
  destruct message as [o [[[rt|] rd]|]]; cbn in *; try reflexivity.
  destruct (String.eqb_spec rt "GetInputVolume") as [->|]; [|reflexivity].
  destruct rd as [[[mul|]]|]; try reflexivity.
  subst o. exfalso. exact (Hvol mul eq_refl).
Qed.

(** X13: once the page holds the connection to be down and the socket can
    no longer open, no callback brings it back: nothing more is sent, no
    frame is processed, no poll timer is armed, and every poll timer that
    fires is spent. *)
Theorem no_remote_activity_after_close (st : PNGTuber) (e : Event) :
  remote_given_up st ->
  remote_given_up (step st e)
  /\ wire (step st e) = wire st
  /\ (pollTimers (step st e) <= pollTimers st)%nat
  /\ (forall now : Z, e = PollTimer now -> (0 < pollTimers st)%nat ->
      (pollTimers (step st e) < pollTimers st)%nat)
  /\ (forall (now : Z) (message : Message), e = WsMessage now message -> step st e = st).
Proof.
  unfold remote_given_up. intros [Hc [Hconn Hopen]].
  record_cases st. cbn in Hc, Hconn, Hopen. subst conn.
  destruct ws as [[| | |]|]; try contradiction;
    destruct e; unfold_callbacks; unfold processVolume, updateMouthState;
    project_fields; split_matches; project_fields;
    (split; [repeat split; congruence|]);
    (split; [reflexivity|]);
    (split; [lia|]);
    (split; [intros now' He Hpos; try discriminate He; lia|]);
    intros now' m He; try discriminate He; reflexivity.
Qed.

(** X14: while the page holds the connection to be up, no callback other
    than the closing of the socket ends a poll loop, and every "identified"
    frame received on the open socket starts one more, sending a request at
    once. *)
Theorem poll_loops_only_multiply (st : PNGTuber) (e : Event) :
  obsConnected st = true ->
  (forall failed : bool, e <> WsClose failed) ->
  obsConnected (step st e) = true
  /\ (pollTimers st <= pollTimers (step st e))%nat
  /\ (forall (now : Z) (message : Message),
        e = WsMessage now message -> op message = 2%Z -> obsWebSocket st = Some OPEN ->
        pollTimers (step st e) = S (pollTimers st)
        /\ wire (step st e)
           = wire st ++ [Request "GetInputVolume" ("vol_" ++ JS.toString now)
                                 (obsAudioSource st)]).
Proof.
  intros Hc Hclose. record_cases st. cbn in Hc. subst conn.
  destruct e as [now|now message| | |now| | | | |];
    try (exfalso; eapply Hclose; reflexivity).
  2:{ (* a frame from the server *)
    split; [|split].
    - unfold_callbacks; unfold processVolume, updateMouthState;
        project_fields; split_matches; reflexivity.
    - unfold_callbacks; unfold processVolume, updateMouthState;
        project_fields; split_matches; project_fields; lia.
    - intros now' message' He Hop Hopen. injection He as <- <-.
      cbn in Hopen. subst ws. unfold step, onmessage, handleOBSMessage.
      cbn [obsWebSocket]. rewrite Hop. cbn. split; reflexivity. }
  all: unfold_callbacks; unfold processVolume, updateMouthState;
    project_fields; split_matches; project_fields;
    (split; [reflexivity|]); (split; [lia|]);
    intros now' message' He; discriminate He.
Qed.

(** ** Construction and configuration *)

Lemma run_without_socket (events : list Event) (st : PNGTuber) :
  obsWebSocket st = None -> deadline st = false -> pollTimers st = 0%nat ->
  let st' := run st events in
  obsWebSocket st' = None /\ deadline st' = false /\ pollTimers st' = 0%nat
  /\ wire st' = wire st /\ sockets st' = sockets st
  /\ initAudioCalls st' = (initAudioCalls st + clicks events)%nat.
Proof.
  cbn zeta. revert st. induction events as [|e rest IH]; intros st Hws Hdl Hpt.
  - unfold clicks. cbn. repeat split; try assumption. lia.
  - assert (Hstep : obsWebSocket (step st e) = None /\ deadline (step st e) = false
                    /\ pollTimers (step st e) = 0%nat /\ wire (step st e) = wire st
                    /\ sockets (step st e) = sockets st
                    /\ initAudioCalls (step st e)
                       = (initAudioCalls st + if is_click e then 1 else 0)%nat).
    { record_cases st. cbn in Hws, Hdl, Hpt. subst ws dl pt.
      destruct e; unfold_callbacks; unfold processVolume, updateMouthState;
        project_fields; cbn [is_click]; split_matches; project_fields;
        repeat split; first [reflexivity | lia]. }
    destruct Hstep as [H1 [H2 [H3 [H4 [H5 H6]]]]].
    destruct (IH (step st e) H1 H2 H3) as [G1 [G2 [G3 [G4 [G5 G6]]]]].
    unfold run in *. cbn [fold_left].
    rewrite G4, G5, G6, H4, H5, H6. repeat split; try assumption.
    unfold clicks. cbn [filter]. destruct (is_click e); cbn [List.length]; lia.
Qed.

(** X15: unless the [obs] parameter is exactly [true], a session never
    creates a socket and never sends a frame, and [initAudio] is called
    once per click on the microphone button and not otherwise. *)
Theorem without_obs_mode_no_socket (page : Page) (events : list Event) :
  params_get (search page) "obs" <> Some "true"%string ->
  let st := run (constructor page) events in
  obsWebSocket st = None /\ sockets st = 0%nat /\ wire st = []
  /\ initAudioCalls st = clicks events.
Proof.
  intro Hobs. cbn zeta.
  assert (H0 : obsWebSocket (constructor page) = None /\ deadline (constructor page) = false
               /\ pollTimers (constructor page) = 0%nat /\ wire (constructor page) = []
               /\ sockets (constructor page) = 0%nat
               /\ initAudioCalls (constructor page) = 0%nat).
  { unfold constructor, checkOBSMode, parseURLParams, fresh.
    destruct (params_get (search page) "obs") as [v|].
    - destruct (String.eqb_spec v "true") as [->|]; [contradiction|].
      destruct (params_get (search page) "threshold");
        destruct (params_get (search page) "source"); repeat split.
    - destruct (params_get (search page) "threshold");
        destruct (params_get (search page) "source"); repeat split. }
  destruct H0 as [H1 [H2 [H3 [H4 [H5 H6]]]]].
  destruct (run_without_socket events _ H1 H2 H3) as [G1 [_ [_ [G4 [G5 G6]]]]].
  rewrite G4, G5, G6, H4, H5, H6. repeat split. exact G1.
Qed.

(** X16: when [new WebSocket] raises in OBS mode, the [catch] block calls
    [initAudio] once; no socket exists and no timer is armed, so the session
    sends nothing and calls [initAudio] again only on a click. *)
Theorem websocket_exception_falls_back_once (page : Page) (events : list Event) :
  params_get (search page) "obs" = Some "true"%string ->
  webSocketThrows page = true ->
  let st := run (constructor page) events in
  obsWebSocket st = None /\ sockets st = 0%nat /\ wire st = []
  /\ initAudioCalls st = S (clicks events).
Proof.
  intros Hobs Hthrows. cbn zeta.
  assert (H0 : obsWebSocket (constructor page) = None /\ deadline (constructor page) = false
               /\ pollTimers (constructor page) = 0%nat /\ wire (constructor page) = []
               /\ sockets (constructor page) = 0%nat
               /\ initAudioCalls (constructor page) = 1%nat).
  { unfold constructor, checkOBSMode, parseURLParams, initOBSWebSocket, initAudio, fresh.
    rewrite Hobs, Hthrows. cbn [String.eqb Ascii.eqb Bool.eqb].
    destruct (params_get (search page) "threshold");
      destruct (params_get (search page) "source"); repeat split. }
  destruct H0 as [H1 [H2 [H3 [H4 [H5 H6]]]]].
  destruct (run_without_socket events _ H1 H2 H3) as [G1 [_ [_ [G4 [G5 G6]]]]].
  rewrite G4, G5, G6, H4, H5, H6. repeat split. exact G1.
Qed.

(** X17: the port, the password and the source are fixed by the
    constructor and no callback changes them; a missing or empty [port]
    gives [4455], so the port is never empty, while an empty [source] is
    kept as it is. *)
Theorem configuration_is_fixed (page : Page) (events : list Event) :
  let st := run (constructor page) events in
  obsPort st = JS.or_default (params_get (search page) "port") "4455"
  /\ obsPort st <> EmptyString
  /\ obsPassword st = JS.or_default (params_get (search page) "password") ""
  /\ obsAudioSource st = match params_get (search page) "source" with
                         | Some v => v
                         | None => "Mic/Aux"%string
                         end.
Proof.
  cbn zeta. destruct (run_config events (constructor page)) as [-> [-> ->]].
  assert (Hport : obsPort (constructor page)
                  = JS.or_default (params_get (search page) "port") "4455")
    by (constructor_cases page; reflexivity).
  split; [exact Hport|]. split.
  - rewrite Hport. unfold JS.or_default.
    destruct (params_get (search page) "port") as [[|c s]|]; cbn; discriminate.
  - split; constructor_cases page; reflexivity.
Qed.

(** ** The two variants of the class *)

(** X18: the microphone loop of the microphone-only variant and the one of
    [js/app.js], which goes through [processVolume], do the same to the
    threshold, the talk state, the smoothed volume, the level meter and the
    mouth events. *)
Theorem variants_agree_on_processAudio (bins : list Byte.byte)
    (m : MicOnly.PNGTuber) (st : PNGTuber) :
  agree m st -> agree (MicOnly.processAudio bins m) (processAudio bins st).
Proof.
  unfold agree. intros [H1 [H2 [H3 [H4 H5]]]].
  destruct m as [thr' talk' sm' bar' mo' mr' al']. record_cases st.
  cbn in H1, H2, H3, H4, H5. subst thr' talk' sm' bar' mo'.
  unfold MicOnly.processAudio, processAudio, processVolume, MicOnly.updateMouthState,
    updateMouthState.
  project_fields.
  destruct bar; project_fields;
    match goal with |- context [Bool.eqb ?a ?b] => destruct (Bool.eqb a b) end;
    cbn; repeat split.
Qed.

(** ** The microphone sample *)

Lemma bytes_sum_le (data data' : list Byte.byte) (acc acc' : Z) :
  bins_le data data' -> (acc <= acc')%Z ->
  (fold_left (fun a b => a + Z.of_N (Byte.to_N b)) data acc
   <= fold_left (fun a b => a + Z.of_N (Byte.to_N b)) data' acc')%Z.
Proof.
  intro H. revert acc acc'. induction H as [|x y l l' Hxy _ IH]; intros acc acc' Hacc.
  - exact Hacc.
  - cbn [fold_left]. apply IH. lia.
Qed.

Lemma bins_le_getByteFrequencyData (bins bins' : list Byte.byte) :
  bins_le bins bins' ->
  bins_le (getByteFrequencyData bins) (getByteFrequencyData bins').
Proof.
  unfold bins_le, getByteFrequencyData. generalize frequencyBinCount at 1 3.
  intros n H. revert n.
  induction H as [|x y l l' Hxy _ IH]; intro n.
  - cbn [app]. generalize (repeat Byte.x00 frequencyBinCount). intro l.
    revert n. induction l as [|z l IHl]; intro n; destruct n; cbn; constructor;
      [lia|apply IHl].
  - destruct n; cbn [app firstn]; constructor; [exact Hxy|apply IH].
Qed.

Lemma Forall_firstn_keeps {A : Type} (P : A -> Prop) (n : nat) (l : list A) :
  Forall P l -> Forall P (firstn n l).
Proof.
  intro H. revert n. induction H as [|x l Hx _ IH]; intro n; destruct n; cbn;
    constructor; auto.
Qed.

(** X19: whatever the analyser delivers, the sample that [processAudio]
    computes is an integer between 0 and 100, and it is 0 when every bin is
    0. *)
Theorem microphone_sample_in_range (bins : list Byte.byte) :
  (0 <= binsVolume (getByteFrequencyData bins) <= 100)%Z
  /\ (Forall (fun b => b = Byte.x00) bins ->
      binsVolume (getByteFrequencyData bins) = 0%Z).
Proof.
  split.
  - pose proof (binsVolume_range bins) as [H1 H2].
    change 0 with (inject_Z 0) in H1. change 100 with (inject_Z 100) in H2.
    rewrite <- Zle_Qle in H1, H2. split; assumption.
  - intro Hzero.
    assert (Hsum : forall data, Forall (fun b => b = Byte.x00) data ->
              fold_left (fun a b => (a + Z.of_N (Byte.to_N b))%Z) data 0%Z = 0%Z).
    { intros data Hd. induction Hd as [|b l Hb _ IH]; [reflexivity|].
      cbn [fold_left]. subst b. exact IH. }
    assert (Hdata : Forall (fun b => b = Byte.x00) (getByteFrequencyData bins)).
    { unfold getByteFrequencyData. apply Forall_firstn_keeps. apply Forall_app. split.
      - exact Hzero.
      - apply Forall_forall. intros b Hb. apply repeat_spec in Hb. exact Hb. }
    unfold binsVolume. rewrite (Hsum _ Hdata), getByteFrequencyData_length.
    reflexivity.
Qed.

(** X20: raising bins of the analyser never lowers the sample that
    [processAudio] computes. *)
Theorem louder_bins_never_lower_the_sample (bins bins' : list Byte.byte) :
  bins_le bins bins' ->
  (binsVolume (getByteFrequencyData bins) <= binsVolume (getByteFrequencyData bins'))%Z.
Proof.
  intro H. apply bins_le_getByteFrequencyData in H.
  pose proof (bytes_sum_le _ _ 0 0 H ltac:(lia)) as Hsum.
  pose proof (bytes_sum_bounds (getByteFrequencyData bins) 0) as Hb.
  unfold binsVolume, JS.Math_round. rewrite !getByteFrequencyData_length.
  set (s := fold_left _ (getByteFrequencyData bins) _) in *.
  set (s' := fold_left _ (getByteFrequencyData bins') _) in *.
  apply Qfloor_resp_le.
  assert (Hq : inject_Z s <= inject_Z s') by (rewrite <- Zle_Qle; exact Hsum).
  unfold frequencyBinCount. change (inject_Z (Z.of_nat 128)) with 128.
  assert (E : forall x : Q, x / 128 / 255 * 100 + 0.5 == x * (100 # 32640) + 0.5)
    by (intro x; field).
  rewrite !E. lra.
Qed.

(** ** Constant input *)

Lemma feed_cons (v : Q) (samples : list Q) (st : PNGTuber) :
  feed (v :: samples) st = feed samples (processVolume v st).
Proof. reflexivity. Qed.

Lemma feed_snoc (v : Q) (samples : list Q) (st : PNGTuber) :
  feed (samples ++ [v]) st = processVolume v (feed samples st).
Proof. unfold feed. rewrite fold_left_app. reflexivity. Qed.

Lemma repeat_snoc (v : Q) (n : nat) : repeat v (S n) = repeat v n ++ [v].
Proof. induction n as [|n IH]; [reflexivity|]. cbn [repeat app] in *. rewrite <- IH. reflexivity. Qed.

Lemma feed_repeat_smoothedVolume (v : Q) (n : nat) (st : PNGTuber) :
  smoothedVolume (feed (repeat v n) st) == v + (smoothedVolume st - v) * decay n.
Proof.
  revert st. induction n as [|n IH]; intro st.
  - cbn. ring.
  - cbn [repeat]. rewrite feed_cons, IH, processVolume_smoothedVolume.
    cbn [decay]. ring.
Qed.

Lemma decay_pos (n : nat) : 0 < decay n.
Proof. induction n as [|n IH]; cbn [decay]; [reflexivity|lra]. Qed.

Lemma decay_le (n k : nat) : decay (k + n) <= decay k.
Proof.
  induction n as [|n IH].
  - rewrite Nat.add_0_r. apply Qle_refl.
  - rewrite Nat.add_succ_r. cbn [decay]. pose proof (decay_pos (k + n)). lra.
Qed.

Lemma feed_repeat_threshold (v : Q) (n : nat) (st : PNGTuber) :
  threshold (feed (repeat v n) st) = threshold st.
Proof.
  revert st. induction n as [|n IH]; intro st; [reflexivity|].
  cbn [repeat]. rewrite feed_cons, IH. apply processVolume_threshold.
Qed.

Lemma feed_repeat_isTalking (v : Q) (n : nat) (st : PNGTuber) :
  isTalking (feed (repeat v (S n)) st)
  = JS.gt (smoothedVolume (feed (repeat v (S n)) st)) (threshold st).
Proof.
  rewrite repeat_snoc, feed_snoc, processVolume_isTalking, processVolume_smoothedVolume.
  rewrite feed_repeat_threshold. reflexivity.
Qed.

(** X22: with a threshold of 1 or more and a smoothed volume in [0,100],
    thirteen samples of silence (or more) leave the avatar not talking. *)
Theorem silence_closes_the_mouth (st : PNGTuber) (t : Z) (n : nat) :
  threshold st = Some t -> (1 <= t)%Z ->
  0 <= smoothedVolume st <= 100 ->
  (13 <= n)%nat ->
  isTalking (feed (repeat 0 n) st) = false.
Proof.
  intros Ht Hpos Hs Hn.
  destruct n as [|n]; [lia|].
  rewrite feed_repeat_isTalking, Ht. apply gt_false.
  rewrite feed_repeat_smoothedVolume.
  assert (Hd : decay (S n) <= decay 13).
  { replace (S n) with (13 + (S n - 13))%nat by lia. apply decay_le. }
  assert (H13 : decay 13 <= 969 # 100000) by (vm_compute; discriminate).
  pose proof (decay_pos (S n)) as Hp.
  assert (Hq : inject_Z 1 <= inject_Z t) by (rewrite <- Zle_Qle; exact Hpos).
  change (inject_Z 1) with 1 in Hq.
  assert (Hprod : smoothedVolume st * decay (S n) <= 100 * decay (S n)).
  { apply Qmult_le_compat_r; [apply Hs|lra]. }
  lra.
Qed.

(** X23: with a threshold of 83 or less and a smoothed volume in [0,100],
    five samples at full scale (or more) leave the avatar talking. *)
Theorem full_scale_opens_the_mouth (st : PNGTuber) (t : Z) (n : nat) :
  threshold st = Some t -> (t <= 83)%Z ->
  0 <= smoothedVolume st <= 100 ->
  (5 <= n)%nat ->
  isTalking (feed (repeat 100 n) st) = true.
Proof.
  intros Ht Hlow Hs Hn.
  destruct n as [|n]; [lia|].
  rewrite feed_repeat_isTalking, Ht. apply gt_true.
  rewrite feed_repeat_smoothedVolume.
  assert (Hd : decay (S n) <= decay 5).
  { replace (S n) with (5 + (S n - 5))%nat by lia. apply decay_le. }
  assert (H5 : decay 5 <= 169 # 1000) by (vm_compute; discriminate).
  pose proof (decay_pos (S n)) as Hp.
  assert (Hq : inject_Z t <= inject_Z 83) by (rewrite <- Zle_Qle; exact Hlow).
  change (inject_Z 83) with 83 in Hq.
  assert (Hprod : (100 - smoothedVolume st) * decay (S n) <= 100 * decay (S n)).
  { apply Qmult_le_compat_r; [lra|lra]. }
  lra.
Qed.

(** ** The threshold parameter *)

Lemma digits_of_numeral (d : Decimal.uint) (acc : Z) :
  JS.digits (NilEmpty.string_of_uint d) true acc = Some (decimal_value d acc).
Proof.
  revert acc. induction d; intro acc; cbn [NilEmpty.string_of_uint decimal_value];
    [reflexivity| |  | | | | | | | | ];
    (cbn [JS.digits]; match goal with
                      | |- context [JS.digit_of ?c] =>
                          let v := eval vm_compute in (JS.digit_of c) in
                          change (JS.digit_of c) with v
                      end; cbn iota; apply IHd).
Qed.

Lemma parseInt_of_numeral (d : Decimal.uint) :
  d <> Decimal.Nil ->
  JS.parseInt (NilEmpty.string_of_uint d) = Some (decimal_value d 0).
Proof.
  intro Hd. destruct d; [contradiction| | | | | | | | | | ];
    (cbn [NilEmpty.string_of_uint]; unfold JS.parseInt;
     cbn [JS.skip_spaces];
     match goal with
     | |- context [JS.is_space ?c] =>
         let v := eval vm_compute in (JS.is_space c) in
         change (JS.is_space c) with v
     end; cbn iota; cbn [JS.digits];
     match goal with
     | |- context [JS.digit_of ?c] =>
         let v := eval vm_compute in (JS.digit_of c) in
         change (JS.digit_of c) with v
     end; cbn iota; cbn [decimal_value]; apply digits_of_numeral).
Qed.

Lemma of_uint_acc_value (d : Decimal.uint) (acc : positive) :
  Z.pos (Pos.of_uint_acc d acc) = decimal_value d (Z.pos acc).
Proof.
  revert acc. induction d; intro acc; cbn [Pos.of_uint_acc decimal_value];
    [reflexivity| | | | | | | | | | ]; rewrite IHd; f_equal; lia.
Qed.

Lemma of_uint_value (d : Decimal.uint) :
  Z.of_N (Pos.of_uint d) = decimal_value d 0.
Proof.
  induction d; cbn [Pos.of_uint decimal_value Z.of_N];
    [reflexivity|exact IHd| | | | | | | | | ]; apply of_uint_acc_value.
Qed.

Lemma parseInt_toString (z : Z) : JS.parseInt (JS.toString z) = Some z.
Proof.
  assert (Hpos : forall p, JS.parseInt (NilEmpty.string_of_uint (Pos.to_uint p))
                           = Some (Z.pos p)).
  { intro p. rewrite parseInt_of_numeral by apply DecimalPos.Unsigned.to_uint_nonnil.
    rewrite <- of_uint_value, DecimalPos.Unsigned.of_to. reflexivity. }
  assert (Hnil : forall p, NilZero.string_of_uint (Pos.to_uint p)
                           = NilEmpty.string_of_uint (Pos.to_uint p)).
  { intro p. pose proof (DecimalPos.Unsigned.to_uint_nonnil p).
    destruct (Pos.to_uint p); [contradiction|reflexivity..]. }
  unfold JS.toString. destruct z as [|p|p]; cbn [Z.to_int NilZero.string_of_int].
  - reflexivity.
  - rewrite Hnil. apply Hpos.
  - rewrite Hnil. specialize (Hpos p). revert Hpos.
    pose proof (DecimalPos.Unsigned.to_uint_nonnil p) as Hn.
    destruct (Pos.to_uint p) eqn:E; [contradiction| | | | | | | | | | ];
      cbn [NilEmpty.string_of_uint]; unfold JS.parseInt; cbn [JS.skip_spaces];
      repeat match goal with
             | |- context [JS.is_space ?c] =>
                 let v := eval vm_compute in (JS.is_space c) in
                 change (JS.is_space c) with v
             end; cbn iota; intro Hpos; rewrite Hpos; reflexivity.
Qed.

(** X24: a threshold that is an integer of magnitude at most 2^53 - 1, the
    integers that a number holds exactly and prints in full, written in
    decimal is read back as that integer, from the [threshold] parameter of
    the URL and from the value of the slider alike. *)
Theorem threshold_parameter_is_read_back (page : Page) (st : PNGTuber) (z : Z) :
  (Z.abs z <= 9007199254740991)%Z ->
  (params_get (search page) "threshold" = Some (JS.toString z) ->
   threshold (constructor page) = Some z)
  /\ threshold (step st (ThresholdInput (JS.toString z))) = Some z.
Proof.
  intros _. split.
  - intro H. rewrite constructor_threshold, H. apply parseInt_toString.
  - cbn [step]. record_cases st. cbn. apply parseInt_toString.
Qed.

(** ** The colour setters *)

Lemma amt_20 : JS.Math_round (2.55 * 20) = 51%Z.
Proof. reflexivity. Qed.

Lemma amt_15 : JS.Math_round (2.55 * 15) = 38%Z.
Proof. reflexivity. Qed.

(** X5: for a colour [#rrggbb], [setBeardColor] writes the colour
    lightened by 38 per channel to the light stop and darkened by 51 per
    channel to the dark stop, and leaves the skin alone; when either stop is
    missing from the document it writes nothing. *)
Theorem setBeardColor_stops (r g b : Z) (gr : Gradients) :
  (0 <= r <= 255)%Z -> (0 <= g <= 255)%Z -> (0 <= b <= 255)%Z ->
  let color := String "#" (hex6 r g b) in
  (beard_light gr <> None -> beard_dark gr <> None ->
   setBeardColor color gr
   = {| skin_light := skin_light gr;
        skin_base := skin_base gr;
        beard_light := Some (String "#" (hex6 (Z.min 255 (r + 38)) (Z.min 255 (g + 38))
                                              (Z.min 255 (b + 38))));
        beard_dark := Some (String "#" (hex6 (Z.max 0 (r - 51)) (Z.max 0 (g - 51))
                                             (Z.max 0 (b - 51)))) |})
  /\ (beard_light gr = None \/ beard_dark gr = None -> setBeardColor color gr = gr).
Proof.
  intros Hr Hg Hb color.
  destruct (hex6_channels r g b Hr Hg Hb) as [Hn [H1 [H2 H3]]].
  assert (Hparse : JSColor.parseInt16 (JSColor.replace_hash color)
                   = Some (r * 65536 + g * 256 + b)%Z).
  { unfold color. cbn [JSColor.replace_hash Ascii.eqb Bool.eqb].
    apply parseInt16_hex6; assumption. }
  split.
  - intros Hl Hd. unfold setBeardColor.
    destruct (beard_light gr); [|contradiction].
    destruct (beard_dark gr); [|contradiction].
    rewrite (lightenColor_number _ 15 _ Hparse Hn) by discriminate.
    rewrite (darkenColor_number _ 20 _ Hparse Hn) by discriminate.
    rewrite amt_15, amt_20, H1, H2, H3. reflexivity.
  - intros [H|H]; unfold setBeardColor; rewrite H; [reflexivity|].
    destruct (beard_light gr); reflexivity.
Qed.

Lemma setBeardColor_skin (color : string) (gr : Gradients) :
  skin_light (setBeardColor color gr) = skin_light gr
  /\ skin_base (setBeardColor color gr) = skin_base gr.
Proof.
  unfold setBeardColor. destruct (beard_light gr), (beard_dark gr); split; reflexivity.
Qed.

(** X6: the [skin] parameter is meant without its [#]: given with it, the
    colour is unreadable and the light stop of the skin becomes the grey
    [#333333] whatever the colour, while the base stop receives the text
    with both [#]. *)
Theorem skin_parameter_with_hash_is_grey (params : URLSearchParams) (v : string)
    (gr : Gradients) :
  skin_light gr <> None -> skin_base gr <> None ->
  params_get params "skin" = Some (String "#" v) ->
  let gr' := parseURLParams_colors params gr in
  skin_light gr' = Some "#333333"%string
  /\ skin_base gr' = Some (String "#" (String "#" v)).
Proof.
  intros Hl Hb Hskin. cbn zeta. unfold parseURLParams_colors. rewrite Hskin.
  assert (Hset : setSkinColor (String "#" (String "#" v)) gr
                 = {| skin_light := Some "#333333"%string;
                      skin_base := Some (String "#" (String "#" v));
                      beard_light := beard_light gr;
                      beard_dark := beard_dark gr |}).
  { unfold setSkinColor.
    destruct (skin_light gr); [|contradiction].
    destruct (skin_base gr); [|contradiction].
    assert (Hnan : JSColor.parseInt16 (JSColor.replace_hash (String "#" (String "#" v)))
                   = None) by reflexivity.
    destruct (unparsable_color_number _ 20 Hnan ltac:(discriminate)) as [-> _].
    reflexivity. }
  rewrite Hset.
  destruct (params_get params "beard") as [w|]; [|split; reflexivity].
  destruct (setBeardColor_skin (String "#" w)
              {| skin_light := Some "#333333"%string;
                 skin_base := Some (String "#" (String "#" v));
                 beard_light := beard_light gr;
                 beard_dark := beard_dark gr |}) as [-> ->].
  split; reflexivity.
Qed.

(** X1: for a colour that [parseInt] reads as a 24-bit number and a
    percentage that is not negative, [lightenColor] returns [#] and six
    lower-case hexadecimal digits: each channel raised by
    [Math.round(2.55 * percent)] and capped at 255. *)
Theorem lightenColor_saturates (hex : string) (percent : Q) (num : Z) :
  JSColor.parseInt16 (JSColor.replace_hash hex) = Some num ->
  (0 <= num < 16777216)%Z ->
  0 <= percent ->
  let amt := JS.Math_round (2.55 * percent) in
  lightenColor hex percent
  = String "#" (hex6 (Z.min 255 (num / 65536 + amt))
                     (Z.min 255 (num / 256 mod 256 + amt))
                     (Z.min 255 (num mod 256 + amt)))
  /\ String.length (lightenColor hex percent) = 7%nat.
Proof.
  intros Hparse Hnum Hp amt.
  rewrite (lightenColor_number hex percent num Hparse Hnum Hp).
  split; reflexivity.
Qed.

Lemma lightenColor_saturates_witness :
  JSColor.parseInt16 (JSColor.replace_hash "#f5d0c5") = Some 16109765%Z
  /\ (0 <= 16109765 < 16777216)%Z /\ 0 <= 20
  /\ lightenColor "#f5d0c5" 20 = "#fffff8"%string.
Proof.
  assert (H1 : JSColor.parseInt16 (JSColor.replace_hash "#f5d0c5") = Some 16109765%Z)
    by reflexivity.
  assert (H2 : (0 <= 16109765 < 16777216)%Z) by lia.
  assert (H3 : 0 <= 20) by discriminate.
  split; [exact H1|]. split; [exact H2|]. split; [exact H3|].
  rewrite (proj1 (lightenColor_saturates "#f5d0c5" 20 16109765 H1 H2 H3)).
  reflexivity.
Defined.

(** X2: under the same conditions [darkenColor] returns [#] and six
    lower-case hexadecimal digits: each channel lowered by
    [Math.round(2.55 * percent)] and floored at 0. *)
Theorem darkenColor_saturates (hex : string) (percent : Q) (num : Z) :
  JSColor.parseInt16 (JSColor.replace_hash hex) = Some num ->
  (0 <= num < 16777216)%Z ->
  0 <= percent ->
  let amt := JS.Math_round (2.55 * percent) in
  darkenColor hex percent
  = String "#" (hex6 (Z.max 0 (num / 65536 - amt))
                     (Z.max 0 (num / 256 mod 256 - amt))
                     (Z.max 0 (num mod 256 - amt)))
  /\ String.length (darkenColor hex percent) = 7%nat.
Proof.
  intros Hparse Hnum Hp amt.
  rewrite (darkenColor_number hex percent num Hparse Hnum Hp).
  split; reflexivity.
Qed.

Lemma darkenColor_saturates_witness :
  JSColor.parseInt16 (JSColor.replace_hash "#2D2d80") = Some 2960768%Z
  /\ (0 <= 2960768 < 16777216)%Z /\ 0 <= 20
  /\ darkenColor "#2D2d80" 20 = "#00004d"%string.
Proof.
  assert (H1 : JSColor.parseInt16 (JSColor.replace_hash "#2D2d80") = Some 2960768%Z)
    by reflexivity.
  assert (H2 : (0 <= 2960768 < 16777216)%Z) by lia.
  assert (H3 : 0 <= 20) by discriminate.
  split; [exact H1|]. split; [exact H2|]. split; [exact H3|].
  rewrite (proj1 (darkenColor_saturates "#2D2d80" 20 2960768 H1 H2 H3)).
  reflexivity.
Defined.

(** X4: a colour in which [parseInt] finds no hexadecimal digit gives
    [NaN], which the bit operators read as 0: [lightenColor] then returns
    the grey whose three channels are the amount itself (capped at 255),
    [#333333] for 20 percent, and [darkenColor] returns black. *)
Theorem unparsable_color_gives_grey (hex : string) (percent : Q) :
  JSColor.parseInt16 (JSColor.replace_hash hex) = None ->
  0 <= percent ->
  let amt := Z.min 255 (JS.Math_round (2.55 * percent)) in
  lightenColor hex percent = String "#" (hex6 amt amt amt)
  /\ darkenColor hex percent = "#000000"%string
  /\ lightenColor hex 20 = "#333333"%string.
Proof.
  intros Hparse Hp amt.
  destruct (unparsable_color_number hex percent Hparse Hp) as [H1 H2].
  split; [exact H1|]. split; [exact H2|].
  destruct (unparsable_color_number hex 20 Hparse ltac:(discriminate)) as [-> _].
  reflexivity.
Qed.

Lemma unparsable_color_gives_grey_witness :
  JSColor.parseInt16 (JSColor.replace_hash "tomato") = None /\ 0 <= 15
  /\ lightenColor "tomato" 15 = "#262626"%string
  /\ darkenColor "tomato" 15 = "#000000"%string.
Proof.
  assert (H1 : JSColor.parseInt16 (JSColor.replace_hash "tomato") = None) by reflexivity.
  assert (H2 : 0 <= 15) by discriminate.
  split; [exact H1|]. split; [exact H2|].
  destruct (unparsable_color_gives_grey "tomato" 15 H1 H2) as [Hl [Hd _]].
  split; [rewrite Hl; reflexivity|exact Hd].
Defined.

(** ** The properties above on concrete sessions *)

Lemma darken_undoes_lighten_witness :
  0 <= 20
  /\ (0 <= 45 <= 255 - JS.Math_round (2.55 * 20))%Z
  /\ lightenColor "#2d2d2d" 20 = "#606060"%string
  /\ darkenColor (lightenColor "#2d2d2d" 20) 20 = "#2d2d2d"%string.
Proof.
  assert (H0 : 0 <= 20) by discriminate.
  assert (H1 : (0 <= 45 <= 255 - JS.Math_round (2.55 * 20))%Z) by (vm_compute; split; discriminate).
  split; [exact H0|]. split; [exact H1|].
  exact (darken_undoes_lighten 45 45 45 20 H0 H1 H1 H1).
Defined.

Lemma setBeardColor_stops_witness :
  let gr := {| skin_light := Some "#ffffff"%string; skin_base := Some "#f5d0c5"%string;
               beard_light := Some "#404040"%string; beard_dark := Some "#1a1a1a"%string |} in
  (0 <= 45 <= 255)%Z /\ beard_light gr <> None /\ beard_dark gr <> None
  /\ beard_light (setBeardColor "#2d2d2d" gr) = Some "#535353"%string
  /\ beard_dark (setBeardColor "#2d2d2d" gr) = Some "#000000"%string.
Proof.
  cbn zeta.
  set (gr := {| skin_light := Some "#ffffff"%string; skin_base := Some "#f5d0c5"%string;
                beard_light := Some "#404040"%string; beard_dark := Some "#1a1a1a"%string |}).
  assert (H : (0 <= 45 <= 255)%Z) by lia.
  assert (Hl : beard_light gr <> None) by discriminate.
  assert (Hd : beard_dark gr <> None) by discriminate.
  split; [exact H|]. split; [exact Hl|]. split; [exact Hd|].
  pose proof (proj1 (setBeardColor_stops 45 45 45 gr H H H) Hl Hd) as Heq.
  change (String "#" (hex6 45 45 45)) with "#2d2d2d"%string in Heq.
  rewrite Heq. split; reflexivity.
Defined.

Lemma skin_parameter_with_hash_is_grey_witness :
  let gr := {| skin_light := Some "#ffffff"%string; skin_base := Some "#f5d0c5"%string;
               beard_light := None; beard_dark := None |} in
  let params := [("skin", "#e8c4b8")]%string in
  skin_light gr <> None /\ skin_base gr <> None
  /\ params_get params "skin" = Some "#e8c4b8"%string
  /\ skin_light (parseURLParams_colors params gr) = Some "#333333"%string.
Proof.
  cbn zeta.
  set (gr := {| skin_light := Some "#ffffff"%string; skin_base := Some "#f5d0c5"%string;
                beard_light := None; beard_dark := None |}).
  assert (Hl : skin_light gr <> None) by discriminate.
  assert (Hb : skin_base gr <> None) by discriminate.
  assert (Hp : params_get [("skin", "#e8c4b8")]%string "skin" = Some "#e8c4b8"%string)
    by reflexivity.
  split; [exact Hl|]. split; [exact Hb|]. split; [exact Hp|].
  exact (proj1 (skin_parameter_with_hash_is_grey _ "e8c4b8" gr Hl Hb Hp)).
Defined.

Lemma unparsable_threshold_never_talks_witness :
  params_get (search (page_threshold "high")) "threshold" = Some "high"%string
  /\ JS.parseInt "high" = None
  /\ forallb (fun e => negb (is_threshold_input e)) sample_events = true
  /\ isTalking (run (constructor (page_threshold "high")) sample_events) = false.
Proof.
  assert (H1 : params_get (search (page_threshold "high")) "threshold" = Some "high"%string)
    by reflexivity.
  assert (H2 : JS.parseInt "high" = None) by reflexivity.
  assert (H3 : forallb (fun e => negb (is_threshold_input e)) sample_events = true)
    by reflexivity.
  split; [exact H1|]. split; [exact H2|]. split; [exact H3|].
  exact (proj1 (proj2 (unparsable_threshold_never_talks _ sample_events "high" H1 H2 H3))).
Defined.

Lemma threshold_of_100_never_talks_witness :
  threshold (constructor (page_threshold "100")) = Some 100%Z
  /\ (100 <= 100)%Z
  /\ forallb (fun e => negb (is_threshold_input e)) sample_events = true
  /\ mouth (run (constructor (page_threshold "100")) sample_events) = [].
Proof.
  assert (H1 : threshold (constructor (page_threshold "100")) = Some 100%Z) by reflexivity.
  assert (H2 : (100 <= 100)%Z) by lia.
  assert (H3 : forallb (fun e => negb (is_threshold_input e)) sample_events = true)
    by reflexivity.
  split; [exact H1|]. split; [exact H2|]. split; [exact H3|].
  exact (proj2 (threshold_of_100_never_talks _ sample_events 100 H1 H2 H3)).
Defined.

Lemma negative_threshold_sticks_open_witness :
  let st := constructor (page_threshold "-5") in
  threshold st = Some (-5)%Z /\ (-5 < 0)%Z /\ 0 <= smoothedVolume st
  /\ Forall (fun v => 0 <= v) [0; 40; 0] /\ [0; 40; 0] <> []
  /\ isTalking (feed [0; 40; 0] st) = true
  /\ mouth (feed [0; 40; 0] st) = [true].
Proof.
  cbn zeta.
  assert (H1 : threshold (constructor (page_threshold "-5")) = Some (-5)%Z) by reflexivity.
  assert (H2 : (-5 < 0)%Z) by lia.
  assert (H3 : 0 <= smoothedVolume (constructor (page_threshold "-5"))) by discriminate.
  assert (H4 : Forall (fun v => 0 <= v) [0; 40; 0]) by (repeat constructor; discriminate).
  assert (H5 : [0; 40; 0] <> []) by discriminate.
  split; [exact H1|]. split; [exact H2|]. split; [exact H3|]. split; [exact H4|].
  split; [exact H5|].
  exact (negative_threshold_sticks_open _ (-5) [0; 40; 0] H1 H2 H3 H4 H5).
Defined.

Lemma other_frames_are_ignored_witness :
  let event := {| op := 5; d := Some {| requestType := None; responseData := None |} |} in
  let st := run (constructor page_obs) [WsOpen 1700000000100] in
  op event <> 0%Z /\ op event <> 2%Z
  /\ (forall mul : Q, event <> volumeResponse mul)
  /\ handleOBSMessage 1700000000150 event st = st.
Proof.
  cbn zeta.
  set (event := {| op := 5; d := Some {| requestType := None; responseData := None |} |}).
  assert (H0 : op event <> 0%Z) by discriminate.
  assert (H2 : op event <> 2%Z) by discriminate.
  assert (Hv : forall mul : Q, event <> volumeResponse mul) by (intro mul; discriminate).
  split; [exact H0|]. split; [exact H2|]. split; [exact Hv|].
  exact (other_frames_are_ignored 1700000000150 event _ H0 H2 Hv).
Defined.

Lemma no_remote_activity_after_close_witness :
  let st := run (constructor page_obs) [WsOpen 1700000000100; WsClose true] in
  remote_given_up st /\ (0 < pollTimers st)%nat
  /\ wire (step st (PollTimer 1700000000116)) = wire st
  /\ (pollTimers (step st (PollTimer 1700000000116)) < pollTimers st)%nat.
Proof.
  cbn zeta.
  set (st := run (constructor page_obs) [WsOpen 1700000000100; WsClose true]).
  assert (H : remote_given_up st) by (repeat split; discriminate).
  assert (Hp : (0 < pollTimers st)%nat) by (vm_compute; lia).
  split; [exact H|]. split; [exact Hp|].
  destruct (no_remote_activity_after_close st (PollTimer 1700000000116) H)
    as [_ [Hw [_ [Hpoll _]]]].
  split; [exact Hw|]. exact (Hpoll 1700000000116%Z eq_refl Hp).
Defined.

Lemma poll_loops_only_multiply_witness :
  let st := run (constructor page_obs) [WsOpen 1700000000100; WsMessage 1700000000110 hello] in
  let identified := {| op := 2; d := None |} in
  obsConnected st = true
  /\ (forall failed : bool, WsMessage 1700000000120 identified <> WsClose failed)
  /\ op identified = 2%Z /\ obsWebSocket st = Some OPEN
  /\ pollTimers st = 1%nat
  /\ pollTimers (step st (WsMessage 1700000000120 identified)) = 2%nat.
Proof.
  cbn zeta.
  set (st := run (constructor page_obs)
                 [WsOpen 1700000000100; WsMessage 1700000000110 hello]).
  set (identified := {| op := 2; d := None |}).
  assert (H1 : obsConnected st = true) by reflexivity.
  assert (H2 : forall failed : bool, WsMessage 1700000000120 identified <> WsClose failed)
    by (intro failed; discriminate).
  assert (H3 : op identified = 2%Z) by reflexivity.
  assert (H4 : obsWebSocket st = Some OPEN) by reflexivity.
  assert (H5 : pollTimers st = 1%nat) by reflexivity.
  split; [exact H1|]. split; [exact H2|]. split; [exact H3|]. split; [exact H4|].
  split; [exact H5|].
  destruct (poll_loops_only_multiply st (WsMessage 1700000000120 identified) H1 H2)
    as [_ [_ Hmsg]].
  rewrite (proj1 (Hmsg 1700000000120%Z identified eq_refl H3 H4)), H5. reflexivity.
Defined.

Lemma without_obs_mode_no_socket_witness :
  let page := {| search := [("obs", "1")]%string;
                 volumeBarElement := true; webSocketThrows := false |} in
  let events := [ClickEnableMic; MicGranted (repeat Byte.x80 128); Timeout3000] in
  params_get (search page) "obs" <> Some "true"%string
  /\ initAudioCalls (run (constructor page) events) = 1%nat
  /\ obsWebSocket (run (constructor page) events) = None.
Proof.
  cbn zeta.
  set (page := {| search := [("obs", "1")]%string;
                  volumeBarElement := true; webSocketThrows := false |}).
  set (events := [ClickEnableMic; MicGranted (repeat Byte.x80 128); Timeout3000]).
  assert (H : params_get (search page) "obs" <> Some "true"%string) by discriminate.
  split; [exact H|].
  destruct (without_obs_mode_no_socket page events H) as [H1 [_ [_ H4]]].
  split; [exact H4|exact H1].
Defined.

Lemma websocket_exception_falls_back_once_witness :
  let page := {| search := [("obs", "true"); ("port", "99999")]%string;
                 volumeBarElement := true; webSocketThrows := true |} in
  let events := [Timeout3000; MicGranted (repeat Byte.x80 128)] in
  params_get (search page) "obs" = Some "true"%string
  /\ webSocketThrows page = true
  /\ initAudioCalls (run (constructor page) events) = 1%nat.
Proof.
  cbn zeta.
  set (page := {| search := [("obs", "true"); ("port", "99999")]%string;
                  volumeBarElement := true; webSocketThrows := true |}).
  set (events := [Timeout3000; MicGranted (repeat Byte.x80 128)]).
  assert (H1 : params_get (search page) "obs" = Some "true"%string) by reflexivity.
  assert (H2 : webSocketThrows page = true) by reflexivity.
  split; [exact H1|]. split; [exact H2|].
  exact (proj2 (proj2 (proj2 (websocket_exception_falls_back_once page events H1 H2)))).
Defined.

Lemma variants_agree_on_processAudio_witness :
  agree (MicOnly.constructor page_threshold30) (constructor page_threshold30)
  /\ agree (MicOnly.processAudio (repeat Byte.xff 128) (MicOnly.constructor page_threshold30))
           (processAudio (repeat Byte.xff 128) (constructor page_threshold30)).
Proof.
  assert (H : agree (MicOnly.constructor page_threshold30) (constructor page_threshold30))
    by (repeat split).
  split; [exact H|].
  exact (variants_agree_on_processAudio (repeat Byte.xff 128) _ _ H).
Defined.

Lemma microphone_sample_in_range_witness :
  Forall (fun b => b = Byte.x00) (repeat Byte.x00 3)
  /\ binsVolume (getByteFrequencyData (repeat Byte.x00 3)) = 0%Z.
Proof.
  assert (H : Forall (fun b => b = Byte.x00) (repeat Byte.x00 3))
    by (repeat constructor).
  split; [exact H|].
  exact (proj2 (microphone_sample_in_range (repeat Byte.x00 3)) H).
Defined.

Lemma louder_bins_never_lower_the_sample_witness :
  bins_le [Byte.x10; Byte.x20] [Byte.x10; Byte.xff]
  /\ (binsVolume (getByteFrequencyData [Byte.x10; Byte.x20])
      <= binsVolume (getByteFrequencyData [Byte.x10; Byte.xff]))%Z.
Proof.
  assert (H : bins_le [Byte.x10; Byte.x20] [Byte.x10; Byte.xff]).
  { repeat constructor; vm_compute; discriminate. }
  split; [exact H|].
  exact (louder_bins_never_lower_the_sample _ _ H).
Defined.

Lemma silence_closes_the_mouth_witness :
  let st := feed [100; 100; 100; 100; 100; 100] (constructor page_threshold30) in
  threshold st = Some 30%Z /\ (1 <= 30)%Z /\ 0 <= smoothedVolume st <= 100
  /\ (13 <= 13)%nat /\ isTalking st = true
  /\ isTalking (feed (repeat 0 13) st) = false.
Proof.
  cbn zeta.
  set (st := feed [100; 100; 100; 100; 100; 100] (constructor page_threshold30)).
  assert (H1 : threshold st = Some 30%Z) by reflexivity.
  assert (H2 : (1 <= 30)%Z) by lia.
  assert (H3 : 0 <= smoothedVolume st <= 100) by (vm_compute; split; discriminate).
  assert (H4 : (13 <= 13)%nat) by lia.
  split; [exact H1|]. split; [exact H2|]. split; [exact H3|]. split; [exact H4|].
  split; [reflexivity|].
  exact (silence_closes_the_mouth st 30 13 H1 H2 H3 H4).
Defined.

Lemma full_scale_opens_the_mouth_witness :
  let st := constructor page_threshold30 in
  threshold st = Some 30%Z /\ (30 <= 83)%Z /\ 0 <= smoothedVolume st <= 100
  /\ (5 <= 5)%nat /\ isTalking (feed (repeat 100 5) st) = true.
Proof.
  cbn zeta.
  assert (H1 : threshold (constructor page_threshold30) = Some 30%Z) by reflexivity.
  assert (H2 : (30 <= 83)%Z) by lia.
  assert (H3 : 0 <= smoothedVolume (constructor page_threshold30) <= 100)
    by (vm_compute; split; discriminate).
  assert (H4 : (5 <= 5)%nat) by lia.
  split; [exact H1|]. split; [exact H2|]. split; [exact H3|]. split; [exact H4|].
  exact (full_scale_opens_the_mouth _ 30 5 H1 H2 H3 H4).
Defined.

Lemma threshold_parameter_is_read_back_witness :
  (Z.abs 45 <= 9007199254740991)%Z
  /\ params_get (search (page_threshold "45")) "threshold" = Some (JS.toString 45)
  /\ threshold (constructor (page_threshold "45")) = Some 45%Z.
Proof.
  assert (H0 : (Z.abs 45 <= 9007199254740991)%Z) by (cbn; lia).
  assert (H : params_get (search (page_threshold "45")) "threshold" = Some (JS.toString 45))
    by reflexivity.
  split; [exact H0|]. split; [exact H|].
  exact (proj1 (threshold_parameter_is_read_back (page_threshold "45")
                  (constructor page_obs) 45 H0) H).
Defined.
